(** * nasa_apod_desktop.py: a shallow embedding and its checked properties

    The script is a linear sequence of I/O steps, written for Python 2 and
    run by Python 3 (it needs 3.9 for [Path.with_stem]).  The embedding
    keeps its control flow and its data as they are written and gives
    every call the outcome it has under Python 3:

    - a [bytes] object is the string of its bytes; a [str] is the string
      of its UTF-8 encoding, so that [str(b, encoding='utf-8')] keeps the
      bytes when they are well-formed UTF-8 and raises otherwise;
    - [re] is a backtracking matcher for the fragment of the pattern
      language the script uses (literals, [.], [[a-b]], groups, the
      quantifiers [*], [+], [*?], [+?]); patterns are parsed from the very
      strings of the source; [.] takes one character, and
      [re.IGNORECASE] folds the four characters outside ASCII that Python
      folds onto ASCII letters;
    - the network, the display utility, the clock, the shell, the random
      generator and the version of Pillow are fields of a record [env];
      the file system, the event trace and the module globals that
      [__main__] reassigns form the mutable [world];
    - a call the interpreter or a library refuses raises: [urllib.urlopen]
      and [urllib.urlretrieve] are no attributes of [urllib], a [Path] is
      no [str] for [with_stem] or for the text of an [lxml] element, a text
      stream takes no [bytes];
    - console output (the [SHOW_DEBUG] prints) is not modelled: no branch
      of the script depends on it. *)

From Stdlib Require Import String Ascii List ZArith QArith Qround Qabs.
From Stdlib Require Import Lia Lqa Bool Permutation.
Import ListNotations.
Open Scope string_scope.
Open Scope Z_scope.

(** ** Strings *)

Module Str.

Fixpoint prefix_n (n : nat) (s : string) : string :=
  match n, s with
  | S n', String c s' => String c (prefix_n n' s')
  | _, _ => EmptyString
  end.

Fixpoint drop_n (n : nat) (s : string) : string :=
  match n, s with
  | S n', String _ s' => drop_n n' s'
  | _, _ => s
  end.

Definition starts_with (p s : string) : bool := String.prefix p s.

Definition ends_with (p s : string) : bool :=
  (String.length p <=? String.length s)%nat
  && String.eqb (drop_n (String.length s - String.length p) s) p.

(** [sub in s]: substring test. *)
Fixpoint contains (sub s : string) : bool :=
  starts_with sub s
  || match s with
     | EmptyString => false
     | String _ s' => contains sub s'
     end.

Definition has_char (c : ascii) (s : string) : bool :=
  contains (String c EmptyString) s.

Definition is_upper (c : ascii) : bool :=
  (65 <=? nat_of_ascii c)%nat && (nat_of_ascii c <=? 90)%nat.

Definition lower (c : ascii) : ascii :=
  if is_upper c then ascii_of_nat (nat_of_ascii c + 32) else c.

Definition is_digit (c : ascii) : bool :=
  (48 <=? nat_of_ascii c)%nat && (nat_of_ascii c <=? 57)%nat.

Definition digit_val (c : ascii) : Z := Z.of_nat (nat_of_ascii c) - 48.

(** Characters [int()] strips around a literal. *)
Definition is_space (c : ascii) : bool :=
  let n := nat_of_ascii c in
  (n =? 32)%nat || ((9 <=? n)%nat && (n <=? 13)%nat)
  || ((28 <=? n)%nat && (n <=? 31)%nat).

Fixpoint lstrip (s : string) : string :=
  match s with
  | String c s' => if is_space c then lstrip s' else s
  | EmptyString => EmptyString
  end.

Fixpoint all_space (s : string) : bool :=
  match s with
  | String c s' => is_space c && all_space s'
  | EmptyString => true
  end.

(** Digits of a decimal literal: single underscores are allowed between
    digits; trailing white space is allowed after the last digit. *)
Fixpoint digits (s : string) (acc : Z) (after_digit : bool) : option Z :=
  match s with
  | EmptyString => if after_digit then Some acc else None
  | String c s' =>
      if is_digit c then digits s' (acc * 10 + digit_val c) true
      else if Ascii.eqb c "_" then
        if after_digit then
          match s' with
          | String d _ => if is_digit d then digits s' acc false else None
          | EmptyString => None
          end
        else None
      else if after_digit && all_space s then Some acc
      else None
  end.

(** [int(s)] for a [str] of ASCII characters: [None] stands for
    [ValueError].  (The digits and the white space outside ASCII that
    [int] also takes, and the interpreter's adjustable limit on the number
    of digits, are not covered.) *)
Definition py_int (s : string) : option Z :=
  match lstrip s with
  | String "+" s' => digits s' 0 false
  | String "-" s' => option_map Z.opp (digits s' 0 false)
  | s' => digits s' 0 false
  end.

Definition digit_char (d : Z) : ascii := ascii_of_nat (Z.to_nat d + 48).

Fixpoint nat_digits (fuel : nat) (n : Z) (acc : string) : string :=
  match fuel with
  | O => acc
  | S f =>
      let acc' := String (digit_char (n mod 10)) acc in
      if n <? 10 then acc' else nat_digits f (n / 10) acc'
  end.

(** [str(n)] for an [int]. *)
Definition py_str (n : Z) : string :=
  if n <? 0 then String "-" (nat_digits (S (Z.to_nat (Z.log2 (- n)))) (- n) "")
  else nat_digits (S (Z.to_nat (Z.log2 n))) n "".

End Str.

(** ** UTF-8 *)

Module Utf8.

Definition between (lo hi : nat) (c : ascii) : bool :=
  (lo <=? nat_of_ascii c)%nat && (nat_of_ascii c <=? hi)%nat.

(** A continuation byte. *)
Definition cont (c : ascii) : bool := between 128 191 c.

(** Well-formed UTF-8, as the strict decoder of Python accepts it: no
    overlong form, no surrogate, nothing beyond U+10FFFF. *)
Fixpoint valid (s : string) : bool :=
  match s with
  | EmptyString => true
  | String a r =>
      if between 0 127 a then valid r
      else
        match r with
        | String b r1 =>
            if between 194 223 a then cont b && valid r1
            else
              match r1 with
              | String c r2 =>
                  if (between 224 224 a && between 160 191 b)
                     || (between 225 236 a && cont b)
                     || (between 237 237 a && between 128 159 b)
                     || (between 238 239 a && cont b)
                  then cont c && valid r2
                  else
                    match r2 with
                    | String d r3 =>
                        if (between 240 240 a && between 144 191 b)
                           || (between 241 243 a && cont b)
                           || (between 244 244 a && between 128 143 b)
                        then cont c && cont d && valid r3
                        else false
                    | EmptyString => false
                    end
              | EmptyString => false
              end
        | EmptyString => false
        end
  end.

(** The text after the character that starts with the byte [a] and goes
    on in [r]. *)
Definition skip (a : ascii) (r : string) : string :=
  if between 240 255 a then Str.drop_n 3 r
  else if between 224 239 a then Str.drop_n 2 r
  else if between 192 223 a then Str.drop_n 1 r
  else r.

End Utf8.

(** ** The fragment of [re] the script uses *)

Module Re.

Inductive re : Type :=
| Eps
| Chr (c : ascii)
| Dot
| Range (lo hi : ascii)
| Cat (r1 r2 : re)
| Rep (plus greedy : bool) (r : re)
| Grp (n : nat) (r : re).

Fixpoint cat_all (rs : list re) : re :=
  match rs with
  | [] => Eps
  | [r] => r
  | r :: rs' => Cat r (cat_all rs')
  end.

Definition is_special (c : ascii) : bool :=
  Str.has_char c "?|\^${".

(** The parser keeps the atoms of the group being read (last first) and
    the stack of enclosing groups; groups are numbered by their opening
    parenthesis, from 1.  [None]: the pattern is outside the fragment. *)
Fixpoint parse_aux (s : string) (next : nat) (cur : list re)
    (stack : list (nat * list re)) : option re :=
  match s with
  | EmptyString =>
      match stack with
      | [] => Some (cat_all (rev cur))
      | _ :: _ => None
      end
  | String c s' =>
      if Ascii.eqb c "(" then parse_aux s' (S next) [] ((next, cur) :: stack)
      else if Ascii.eqb c ")" then
        match stack with
        | (n, outer) :: st =>
            parse_aux s' next (Grp n (cat_all (rev cur)) :: outer) st
        | [] => None
        end
      else if Ascii.eqb c "*" || Ascii.eqb c "+" then
        match cur with
        | a :: cur' =>
            match s' with
            | String "?" s'' =>
                parse_aux s'' next (Rep (Ascii.eqb c "+") false a :: cur') stack
            | _ =>
                parse_aux s' next (Rep (Ascii.eqb c "+") true a :: cur') stack
            end
        | [] => None
        end
      else if Ascii.eqb c "[" then
        match s' with
        | String lo (String "-" (String hi (String "]" s''))) =>
            parse_aux s'' next (Range lo hi :: cur) stack
        | _ => None
        end
      else if Ascii.eqb c "." then parse_aux s' next (Dot :: cur) stack
      else if is_special c then None
      else parse_aux s' next (Chr c :: cur) stack
  end.

Definition compile (pattern : string) : option re :=
  parse_aux pattern 1 [] [].

(** Captures: the last binding of a group is the first in the list. *)
Definition caps := list (nat * string).

Fixpoint lookup (n : nat) (cs : caps) : option string :=
  match cs with
  | [] => None
  | (k, v) :: cs' => if Nat.eqb k n then Some v else lookup n cs'
  end.

Definition chr_eq (ic : bool) (a b : ascii) : bool :=
  if ic then Ascii.eqb (Str.lower a) (Str.lower b) else Ascii.eqb a b.

Definition in_range (ic : bool) (lo hi c : ascii) : bool :=
  let inr x := (nat_of_ascii lo <=? nat_of_ascii x)%nat
               && (nat_of_ascii x <=? nat_of_ascii hi)%nat in
  inr c || (ic && (inr (Str.lower c)
                   || (Str.is_upper (ascii_of_nat (nat_of_ascii c - 32))
                       && inr (ascii_of_nat (nat_of_ascii c - 32))))).

Definition newline : ascii := ascii_of_nat 10.

(** The characters outside ASCII that [re.IGNORECASE] folds onto an ASCII
    letter: U+0130 and U+0131 onto [i], U+017F onto [s], U+212A onto [k].
    [fold_extra l s] is the text after such a character at the head of
    [s], for the lower-case letter [l]. *)
Definition fold_extra (l : ascii) (s : string) : option string :=
  match s with
  | String a (String b r) =>
      if Ascii.eqb l "i" && Utf8.between 196 196 a && Utf8.between 176 177 b
      then Some r
      else if Ascii.eqb l "s" && Utf8.between 197 197 a
              && Utf8.between 191 191 b
      then Some r
      else
        match r with
        | String c r' =>
            if Ascii.eqb l "k" && Utf8.between 226 226 a
               && Utf8.between 132 132 b && Utf8.between 170 170 c
            then Some r'
            else None
        | EmptyString => None
        end
  | _ => None
  end.

(** The same for a class [[lo-hi]]: the letter the character folds onto
    has to lie in the class, in either case. *)
Definition range_extra (lo hi : ascii) (s : string) : option string :=
  match (if in_range true lo hi "i" then fold_extra "i" s else None) with
  | Some r => Some r
  | None =>
      match (if in_range true lo hi "s" then fold_extra "s" s else None) with
      | Some r => Some r
      | None => if in_range true lo hi "k" then fold_extra "k" s else None
      end
  end.

(** Backtracking matcher in continuation style: [k] receives the rest of
    the text and the captures and decides whether the remainder of the
    pattern matches there.  [ic] is [re.IGNORECASE]. *)
Fixpoint m {A : Type} (ic : bool) (r : re) (s : string) (cs : caps)
    (k : string -> caps -> option A) {struct r} : option A :=
  match r with
  | Eps => k s cs
  | Chr c =>
      match s with
      | String d s' =>
          if chr_eq ic c d then k s' cs
          else if ic then
            match fold_extra (Str.lower c) s with
            | Some r => k r cs
            | None => None
            end
          else None
      | EmptyString => None
      end
  | Dot =>
      match s with
      | String d s' =>
          if Ascii.eqb d newline then None else k (Utf8.skip d s') cs
      | EmptyString => None
      end
  | Range lo hi =>
      match s with
      | String d s' =>
          if in_range ic lo hi d then k s' cs
          else if ic then
            match range_extra lo hi s with
            | Some r => k r cs
            | None => None
            end
          else None
      | EmptyString => None
      end
  | Cat r1 r2 => m ic r1 s cs (fun s1 c1 => m ic r2 s1 c1 k)
  | Rep plus greedy r' =>
      let loop :=
        fix loop (fuel : nat) (s : string) (cs : caps) {struct fuel}
            : option A :=
          match fuel with
          | O => k s cs
          | S f =>
              if greedy then
                match m ic r' s cs (fun s' cs' =>
                        if (String.length s' <? String.length s)%nat
                        then loop f s' cs' else None) with
                | Some x => Some x
                | None => k s cs
                end
              else
                match k s cs with
                | Some x => Some x
                | None =>
                    m ic r' s cs (fun s' cs' =>
                      if (String.length s' <? String.length s)%nat
                      then loop f s' cs' else None)
                end
          end in
      if plus
      then m ic r' s cs (fun s' cs' => loop (S (String.length s')) s' cs')
      else loop (S (String.length s)) s cs
  | Grp n r' =>
      m ic r' s cs (fun s' cs' =>
        k s' ((n, Str.prefix_n (String.length s - String.length s') s) :: cs'))
  end.

(** A match: the text from its start, the text after its end, the groups. *)
Record match_obj : Type := MkMatch {
  m_from : string;
  m_rest : string;
  m_caps : caps
}.

Definition group (n : nat) (mo : match_obj) : option string :=
  lookup n (m_caps mo).

Definition match_at (ic : bool) (r : re) (s : string) : option match_obj :=
  m ic r s [] (fun s' cs => Some (MkMatch s s' cs)).

(** [re.search]: the leftmost match. *)
Fixpoint search (ic : bool) (r : re) (s : string) : option match_obj :=
  match match_at ic r s with
  | Some mo => Some mo
  | None =>
      match s with
      | EmptyString => None
      | String _ s' => search ic r s'
      end
  end.

(** [re.finditer]: the successive non-overlapping matches, left to right. *)
Fixpoint finditer_aux (fuel : nat) (ic : bool) (r : re) (s : string)
    : list match_obj :=
  match fuel with
  | O => []
  | S f =>
      match search ic r s with
      | None => []
      | Some mo =>
          mo :: (if (String.length (m_rest mo) <? String.length (m_from mo))%nat
                 then finditer_aux f ic r (m_rest mo)
                 else match m_rest mo with
                      | EmptyString => []
                      | String _ s' => finditer_aux f ic r s'
                      end)
      end
  end.

Definition finditer (ic : bool) (r : re) (s : string) : list match_obj :=
  finditer_aux (S (String.length s)) ic r s.

End Re.

Definition nl : string := String Re.newline EmptyString.

(** ** Paths: [os.path] and [pathlib] on POSIX path text *)

Module PathLib.

(** [split p] cuts [p] after its last slash: the directory part (with the
    slash) and the final component. *)
Fixpoint split (p : string) : string * string :=
  match p with
  | EmptyString => (EmptyString, EmptyString)
  | String c p' =>
      let (d, n) := split p' in
      if Ascii.eqb c "/" then
        (String c d, n)
      else
        match d with
        | EmptyString => (EmptyString, String c n)
        | _ => (String c d, n)
        end
  end.

(** [os.path.basename]. *)
Definition basename (p : string) : string := snd (split p).

(** [os.path.join] of two parts. *)
Definition join (a b : string) : string :=
  if Str.starts_with "/" b then b
  else if String.eqb a "" || Str.ends_with "/" a then a ++ b
  else a ++ "/" ++ b.

(** [d / n] for a relative one-component [n]. *)
Definition child (d n : string) : string :=
  if String.eqb d "." || String.eqb d "" then n
  else if Str.ends_with "/" d then d ++ n
  else d ++ "/" ++ n.

(** [PurePath.parent] of a path without a trailing slash. *)
Definition parent (p : string) : string :=
  let d := fst (split p) in
  if String.eqb d "" then "."
  else if String.eqb d "/" then "/"
  else Str.prefix_n (String.length d - 1) d.

(** Is [p] an entry of directory [d] whose name matches [*.png]? *)
Definition is_png_entry (d p : string) : bool :=
  let pre := child d "" in
  Str.starts_with pre p
  && (let n := Str.drop_n (String.length pre) p in
      negb (Str.has_char "/" n) && Str.ends_with ".png" n).

End PathLib.

(** ** Values, settings, the outside world *)

(** What [download_site] hands back: [bytes] read from the response, or a
    [str] built by the error handler (held as its UTF-8 encoding). *)
Inductive pytext : Type :=
| Bytes (b : string)
| Text (s : string).

(** [text == s] for a [str] literal [s]: a [bytes] object is never equal
    to a [str]. *)
Definition text_eq_str (t : pytext) (s : string) : bool :=
  match t with
  | Bytes _ => false
  | Text s' => String.eqb s' s
  end.

(** Lines 439-440: [str(text, encoding='utf-8')] when [text] is [bytes];
    [None] is [UnicodeDecodeError]. *)
Definition decode (t : pytext) : option string :=
  match t with
  | Bytes b => if Utf8.valid b then Some b else None
  | Text s => Some s
  end.

(** A value that is a [pathlib.Path] or a [str]: the two are told apart
    where a callee takes only one of them. *)
Inductive pyobj : Type :=
| PathObj (p : string)
| StrObj (s : string).

(** [res_x], [res_y] of [find_resolution]: the integers they start as, or
    what [match.group] puts in them (a string, or [None] for a group that
    took no part in the match). *)
Inductive pyval : Type :=
| VNone
| VInt (z : Z)
| VStr (s : string).

Definition truthy (v : pyval) : bool :=
  match v with
  | VNone => false
  | VInt z => negb (z =? 0)
  | VStr s => negb (String.eqb s "")
  end.

(** [int(v)]; [None] is the exception it raises. *)
Definition int_of (v : pyval) : option Z :=
  match v with
  | VNone => None
  | VInt z => Some z
  | VStr s => Str.py_int s
  end.

Definition of_group (o : option string) : pyval :=
  match o with
  | Some s => VStr s
  | None => VNone
  end.

(** The module globals read from [apod.config]. *)
Record settings : Type := MkSettings {
  DOWNLOAD_PATH : string;
  CUSTOM_FOLDER : string;
  RESOLUTION_TYPE : string;
  RESOLUTION_X : Z;
  RESOLUTION_Y : Z;
  NASA_APOD_SITE : string;
  IMAGE_SCROLL : bool;
  IMAGE_DURATION : Z;
  SEED_IMAGES : Z;
  SHOW_DEBUG : bool;
  SCREEN_UTILITY : string;
  SET_BG_CMD : string
}.

Definition set_resolution (x y : Z) (g : settings) : settings :=
  MkSettings (DOWNLOAD_PATH g) (CUSTOM_FOLDER g) (RESOLUTION_TYPE g) x y
    (NASA_APOD_SITE g) (IMAGE_SCROLL g) (IMAGE_DURATION g) (SEED_IMAGES g)
    (SHOW_DEBUG g) (SCREEN_UTILITY g) (SET_BG_CMD g).

Definition set_download_path (p : string) (g : settings) : settings :=
  MkSettings p (CUSTOM_FOLDER g) (RESOLUTION_TYPE g) (RESOLUTION_X g)
    (RESOLUTION_Y g) (NASA_APOD_SITE g) (IMAGE_SCROLL g) (IMAGE_DURATION g)
    (SEED_IMAGES g) (SHOW_DEBUG g) (SCREEN_UTILITY g) (SET_BG_CMD g).

(** An [lxml] element: tag, text, children in document order. *)
#[warnings="-register-all"]
Inductive xml : Type :=
| Element (tag : string) (text : option string) (children : list xml).

(** What a file holds, as far as the script can tell: an image of some
    pixel size, a playlist, anything else, or nothing (a file of no
    bytes). *)
Inductive content : Type :=
| Image (width height : Z)
| Playlist (doc : xml)
| Blob
| Empty.

Inductive exn : Type :=
| ValueError
| TypeError
| IndexError
| OSError
| URLError
| ReError
| AttributeError
| UnicodeDecodeError
| OverflowError.

Inductive http_reply : Type :=
| Body (b : string)
| HttpError (code : Z)
| NoReply.

(** What a request for an image address would be answered: the declared
    content length, or no answer. *)
Inductive open_reply : Type :=
| Headers (content_length : option Z)
| OpenFails.

(** Everything the script asks of its surroundings:
    - [screen_utility cmd]: the standard output of the display utility
      ([None]: it cannot be started);
    - [http_get url]: the answer to [opener.open] and [response.read];
    - [url_open url], [url_retrieve url]: what the server holds behind an
      image address, its declared length and its payload (the script, as
      it stands, does not get to ask);
    - [now], [strftime_ymd]: the day [datetime.now()] falls on, as the
      ordinal of its date (day 1 is 1 January of year 1, the first day
      [datetime] has), taken as fixed for a run, and [strftime('%y%m%d')]
      on a day;
    - [glib_downloads]: what the [try] of [set_download_folder] leaves in
      [downloads_dir];
    - [expanduser]: [Path.expanduser];
    - [shuffle]: the order [random.shuffle] leaves the list in;
    - [shell cmd]: the return code of the command;
    - [pillow_antialias]: whether [Image.ANTIALIAS] exists (Pillow before
      version 10). *)
Record env : Type := MkEnv {
  screen_utility : string -> option string;
  http_get : string -> http_reply;
  url_open : string -> open_reply;
  url_retrieve : string -> option content;
  now : Z;
  strftime_ymd : Z -> string;
  glib_downloads : option string;
  expanduser : string -> string;
  shuffle : list string -> list string;
  shell : string -> Z;
  pillow_antialias : bool
}.

(** What the script does to its surroundings, in order. *)
Inductive event : Type :=
| EvScreen (cmd : string)
| EvGet (url : string)
| EvOpen (url : string)
| EvRetrieve (url path : string)
| EvWrite (path : string)
| EvMkdir (path : string)
| EvRun (cmd : string).

(** The mutable state: the module globals, the files and directories,
    the events so far. *)
Record world : Type := MkWorld {
  globals : settings;
  files : list (string * content);
  dirs : list string;
  trace : list event
}.

(** *** The file system *)

Fixpoint lookup_file (p : string) (fs : list (string * content))
    : option content :=
  match fs with
  | [] => None
  | (q, c) :: fs' => if String.eqb q p then Some c else lookup_file p fs'
  end.

(** Writing replaces the file in place or adds it at the end. *)
Fixpoint write_file (p : string) (c : content) (fs : list (string * content))
    : list (string * content) :=
  match fs with
  | [] => [(p, c)]
  | (q, c') :: fs' =>
      if String.eqb q p then (q, c) :: fs' else (q, c') :: write_file p c fs'
  end.

Definition is_file (p : string) (fs : list (string * content)) : bool :=
  match lookup_file p fs with
  | Some _ => true
  | None => false
  end.

Definition is_dir (p : string) (ds : list string) : bool :=
  String.eqb p "." || String.eqb p "/" || existsb (String.eqb p) ds.

(** [Path(d).glob('*.png')]. *)
Definition glob_png (d : string) (fs : list (string * content)) : list string :=
  filter (PathLib.is_png_entry d) (map fst fs).

(** ** The monad of the script: state, [exit()], exceptions, fuel *)

(** How a computation ends: with a value, through [exit()], with an
    exception nothing catches, or ([Spin]) with the fuel of a loop used up. *)
Inductive outcome (A : Type) : Type :=
| Ret (a : A)
| Exit
| Raise (e : exn)
| Spin.

Arguments Ret {A} a.
Arguments Exit {A}.
Arguments Raise {A} e.
Arguments Spin {A}.

Definition M (A : Type) : Type := world -> outcome A * world.

Definition ret {A} (a : A) : M A := fun w => (Ret a, w).

Definition bind {A B} (c : M A) (f : A -> M B) : M B :=
  fun w =>
    match c w with
    | (Ret a, w') => f a w'
    | (Exit, w') => (Exit, w')
    | (Raise e, w') => (Raise e, w')
    | (Spin, w') => (Spin, w')
    end.

Notation "x <- c ;; k" := (bind c (fun x => k))
  (at level 61, c at next level, right associativity).
Notation "c ;;; k" := (bind c (fun _ => k))
  (at level 61, right associativity).

Definition exit {A} : M A := fun w => (Exit, w).
Definition raise {A} (e : exn) : M A := fun w => (Raise e, w).
Definition spin {A} : M A := fun w => (Spin, w).

Definition get_globals : M settings := fun w => (Ret (globals w), w).
Definition get_files : M (list (string * content)) :=
  fun w => (Ret (files w), w).

Definition put_globals (g : settings) : M unit :=
  fun w => (Ret tt, MkWorld g (files w) (dirs w) (trace w)).

Definition log (e : event) : M unit :=
  fun w => (Ret tt, MkWorld (globals w) (files w) (dirs w) (trace w ++ [e])).

Definition store (p : string) (c : content) : M unit :=
  fun w =>
    (Ret tt, MkWorld (globals w) (write_file p c (files w)) (dirs w) (trace w)).

Definition get_dirs : M (list string) := fun w => (Ret (dirs w), w).

Definition add_dir (d : string) : M unit :=
  fun w => (Ret tt, MkWorld (globals w) (files w) (dirs w ++ [d]) (trace w)).

Definition of_option {A} (e : exn) (o : option A) : M A :=
  match o with
  | Some a => ret a
  | None => raise e
  end.

(** ** Library calls with a pure meaning *)

(** Lines of a text; a final newline does not open a further line. *)
Fixpoint split_lines (s : string) : list string :=
  match s with
  | EmptyString => []
  | String c s' =>
      if Ascii.eqb c Re.newline then EmptyString :: split_lines s'
      else match split_lines s' with
           | [] => [String c EmptyString]
           | l :: ls => String c l :: ls
           end
  end.

(** [grep word]: the lines that contain [word], each with its newline. *)
Definition grep (word text : string) : string :=
  String.concat "" (map (fun l => l ++ nl)
                      (filter (Str.contains word) (split_lines text))).

(** [re.search(pattern, text[, re.IGNORECASE])] and [re.finditer]; the
    outer [None] is a pattern outside the fragment. *)
Definition re_search (pattern text : string) (ic : bool)
    : option (option Re.match_obj) :=
  option_map (fun r => Re.search ic r text) (Re.compile pattern).

Definition re_finditer (pattern text : string)
    : option (list Re.match_obj) :=
  option_map (fun r => Re.finditer false r text) (Re.compile pattern).

(** [template.format(arg)] for templates made of text, doubled braces and
    the field [{}]; [None] is the exception [format] raises (a second
    field, a lone brace) or a field outside this fragment. *)
Fixpoint format_aux (t arg : string) (used : bool) : option string :=
  match t with
  | EmptyString => Some EmptyString
  | String "{" (String "{" t') =>
      option_map (String "{") (format_aux t' arg used)
  | String "{" (String "}" t') =>
      if used then None
      else option_map (fun r => arg ++ r) (format_aux t' arg true)
  | String "{" _ => None
  | String "}" (String "}" t') =>
      option_map (String "}") (format_aux t' arg used)
  | String "}" _ => None
  | String c t' => option_map (String c) (format_aux t' arg used)
  end.

Definition py_format (template arg : string) : option string :=
  format_aux template arg false.

(** ['%3.2f' % q]: two decimals, the exact value rounded half to even. *)
Definition round_half_even (q : Q) : Z :=
  let f := Qfloor q in
  let r := (q - inject_Z f)%Q in
  match (r ?= 1 # 2)%Q with
  | Lt => f
  | Gt => f + 1
  | Eq => if Z.even f then f else f + 1
  end.

Definition two_digits (n : Z) : string :=
  String (Str.digit_char (n / 10)) (String (Str.digit_char (n mod 10)) "").

Definition format_3_2f (q : Q) : string :=
  let n := round_half_even (Qabs q * 100)%Q in
  (if Qlt_le_dec q 0 then "-" else "")
  ++ Str.py_str (n / 100) ++ "." ++ two_digits (n mod 100).

(** ** The script *)

(** [human_readable_size], lines 328-332, on a [float] that is finite:
    [number_bytes] is its exact value, and dividing a binary float by
    [1024.0] is exact on the values that reach the division.  [None] is
    the [None] a Python function returns when its body runs off the end.
    [human_readable_size_of] below is the function on any number. *)
Fixpoint human_readable_size_loop (units : list string) (number_bytes : Q)
    : option string :=
  match units with
  | [] => None
  | x :: units' =>
      if Qlt_le_dec number_bytes 1024
      then Some (format_3_2f number_bytes ++ x)
      else human_readable_size_loop units' (number_bytes / 1024)%Q
  end.

Definition human_readable_size (number_bytes : Q) : option string :=
  human_readable_size_loop ["bytes"; "KB"; "MB"] number_bytes.

(** A [float]: a finite one by its exact value, zero with a minus sign,
    an infinity, or not a number. *)
Inductive pyfloat : Type :=
| Finite (q : Q)
| NegZero
| Infinite (negative : bool)
| NaN.

(** The numbers [human_readable_size] is handed: an [int] or a [float]. *)
Inductive pynum : Type :=
| PInt (z : Z)
| PFloat (f : pyfloat).

(** [a / d] rounded to the nearest integer, halves to the even one. *)
Definition div_half_even (a d : Z) : Z :=
  let q := a / d in
  match (2 * (a mod d) ?= d) with
  | Lt => q
  | Gt => q + 1
  | Eq => if Z.even q then q else q + 1
  end.

(** [float(z)] for an [int]: the nearest binary64 number, halves to even;
    [None] is [OverflowError] ("int too large to convert to float"). *)
Definition float_of_int (z : Z) : option Q :=
  let a := Z.abs z in
  if a <? 2 ^ 53 then Some (inject_Z z)
  else
    let e := Z.log2 a - 52 in
    let v := div_half_even a (2 ^ e) * 2 ^ e in
    if v <? 2 ^ 1024 then Some (inject_Z (Z.sgn z * v)) else None.

(** [number_bytes < 1024.0]: an [int] and a [float] are compared by
    their exact values. *)
Definition below_1024 (n : pynum) : bool :=
  match n with
  | PInt z => z <? 1024
  | PFloat (Finite q) => if Qlt_le_dec q 1024 then true else false
  | PFloat NegZero => true
  | PFloat (Infinite negative) => negative
  | PFloat NaN => false
  end.

(** [number_bytes /= 1024.0]: an [int] is converted first. *)
Definition divide_by_1024 (n : pynum) : option pyfloat :=
  match n with
  | PInt z => option_map (fun q => Finite (q / 1024)%Q) (float_of_int z)
  | PFloat (Finite q) => Some (Finite (q / 1024)%Q)
  | PFloat f => Some f
  end.

(** ['%3.2f%s' % (number_bytes, x)]; the format converts an [int]. *)
Definition format_size (n : pynum) (x : string) : option string :=
  match n with
  | PInt z => option_map (fun q => format_3_2f q ++ x) (float_of_int z)
  | PFloat (Finite q) => Some (format_3_2f q ++ x)
  | PFloat NegZero => Some ("-0.00" ++ x)
  | PFloat (Infinite negative) =>
      Some ((if negative then "-inf" else "inf") ++ x)
  | PFloat NaN => Some ("nan" ++ x)
  end.

(** [human_readable_size], lines 328-332, on any number. *)
Fixpoint human_readable_size_of_loop (units : list string)
    (number_bytes : pynum) : outcome (option string) :=
  match units with
  | [] => Ret None
  | x :: units' =>
      if below_1024 number_bytes then
        match format_size number_bytes x with
        | Some s => Ret (Some s)
        | None => Raise OverflowError
        end
      else
        match divide_by_1024 number_bytes with
        | Some f => human_readable_size_of_loop units' (PFloat f)
        | None => Raise OverflowError
        end
  end.

Definition human_readable_size_of (number_bytes : pynum)
    : outcome (option string) :=
  human_readable_size_of_loop ["bytes"; "KB"; "MB"] number_bytes.

(** ['%s' % v] for the result of [human_readable_size]. *)
Definition percent_s (v : option string) : string :=
  match v with
  | Some s => s
  | None => "None"
  end.

(** [print_download_status], lines 319-325: the text it writes to
    [stdout], a carriage return first; the three arguments are [int]s. *)
Definition print_download_status (block_count block_size total_size : Z)
    : outcome string :=
  match human_readable_size_of (PInt (block_count * block_size)) with
  | Ret written_size =>
      match human_readable_size_of (PInt total_size) with
      | Ret total_size =>
          Ret (String (ascii_of_nat 13)
                 (percent_s written_size ++ " bytes of "
                  ++ percent_s total_size ++ "         "))
      | Exit => Exit
      | Raise e => Raise e
      | Spin => Spin
      end
  | Exit => Exit
  | Raise e => Raise e
  | Spin => Spin
  end.

(** The [for match in matches] loop of the ['largest'] branches, lines
    151-154 and 169-172.  [largest] is the local of that name: the loop
    tests against it and assigns [res_x, res_y]; nothing assigns [largest]. *)
Fixpoint largest_loop (largest : Z) (matches : list Re.match_obj)
    (res : pyval * pyval) : option (pyval * pyval) :=
  match matches with
  | [] => Some res
  | mo :: matches' =>
      let g1 := of_group (Re.group 1 mo) in
      let g2 := of_group (Re.group 2 mo) in
      match int_of g1, int_of g2 with
      | Some a, Some b =>
          if a * b >? largest
          then largest_loop largest matches' (g1, g2)
          else largest_loop largest matches' res
      | _, _ => None
      end
  end.

(** The [re.search] branches for the current resolution. *)
Definition current_groups (reg : option Re.match_obj) (res : pyval * pyval)
    : pyval * pyval :=
  match reg with
  | Some mo => (of_group (Re.group 1 mo), of_group (Re.group 2 mo))
  | None => res
  end.

(** Lines 145-180 of [find_resolution]: what the text [output] of the
    display utility puts in [res_x, res_y], which start as [0, 0]. *)
Definition detect (g : settings) (output : string) : option (pyval * pyval) :=
  let res := (VInt 0, VInt 0) in
  if String.eqb (SCREEN_UTILITY g) "xrandr" then
    if String.eqb (RESOLUTION_TYPE g) "largest" then
      match re_finditer " connected ([0-9]+)x([0-9]+)+" output with
      | Some matches => largest_loop 0 matches res
      | None => None
      end
    else
      option_map (fun reg => current_groups reg res)
        (re_search ".* current (.*?) x (.*?),.*" output false)
  else if Str.contains "displayplacer" (SCREEN_UTILITY g) then
    if String.eqb (RESOLUTION_TYPE g) "largest" then
      match re_finditer " res:([0-9]+)x([0-9]+)+ " output with
      | Some matches => largest_loop 0 matches res
      | None => None
      end
    else
      option_map (fun reg => current_groups reg res)
        (re_search "res:(.*?)x(.*?)" output false)
  else Some res.

(** Lines 182-192: the fall-back to the defaults and the conversion. *)
Definition finish_resolution (g : settings) (res : pyval * pyval)
    : option (Z * Z) :=
  let res' :=
    if negb (truthy (fst res) && truthy (snd res))
    then (VInt (RESOLUTION_X g), VInt (RESOLUTION_Y g))
    else res in
  match int_of (fst res'), int_of (snd res') with
  | Some x, Some y => Some (x, y)
  | _, _ => None
  end.

(** [find_resolution] once the pipeline has printed [output]. *)
Definition resolution_of_output (g : settings) (output : string)
    : option (Z * Z) :=
  match detect g output with
  | Some res => finish_resolution g res
  | None => None
  end.

(** [urllib.urlopen(url)], line 459: the module [urllib] of Python 3 has
    no attribute [urlopen]; the lookup raises before any request, and
    what [url_open E] holds for the address is not asked for. *)
Definition urlopen (E : env) (url : string) : M open_reply :=
  raise AttributeError.

(** [urllib.urlretrieve(url, path)], lines 273 and 279: no attribute of
    [urllib] either. *)
Definition urlretrieve (E : env) (url path : string) : M unit :=
  raise AttributeError.

Section Script.

Variable E : env.

(** [find_resolution], lines 106-192. *)
Definition find_resolution : M (Z * Z) :=
  g <- get_globals ;;
  if String.eqb (RESOLUTION_TYPE g) "default"
  then ret (RESOLUTION_X g, RESOLUTION_Y g)
  else
    let regex_search :=
      if String.eqb (RESOLUTION_TYPE g) "largest"
      then "connected" else "current" in
    log (EvScreen (SCREEN_UTILITY g)) ;;;
    raw <- of_option OSError (screen_utility E (SCREEN_UTILITY g)) ;;
    output <- of_option UnicodeDecodeError
                (decode (Bytes (grep regex_search raw))) ;;
    of_option ValueError (resolution_of_output g output).

(** [set_download_folder], lines 195-218: [glib_downloads E] is what the
    [try] leaves in [downloads_dir].  [os.path.join] returns a [str];
    [DOWNLOAD_PATH] is a [Path]. *)
Definition set_download_folder : M pyobj :=
  g <- get_globals ;;
  match glib_downloads E with
  | Some downloads_dir =>
      if negb (String.eqb downloads_dir "")
      then ret (StrObj (PathLib.join downloads_dir (CUSTOM_FOLDER g)))
      else ret (PathObj (DOWNLOAD_PATH g))
  | None => ret (PathObj (DOWNLOAD_PATH g))
  end.

(** [download_site], lines 221-234. *)
Definition download_site (url : string) : M pytext :=
  log (EvGet url) ;;;
  match http_get E url with
  | Body b => ret (Bytes b)
  | HttpError code => ret (Text ("Error: " ++ Str.py_str code))
  | NoReply => raise URLError
  end.

(** [get_image_info], lines 435-464.  The result is [None] for the triple
    [None, None, None]. *)
Definition get_image_info (element : string) (text : pytext)
    : M (option (string * string * Z)) :=
  g <- get_globals ;;
  let regex := "<" ++ element ++ "='(image.*?)'" in
  text <- of_option UnicodeDecodeError (decode text) ;;
  reg <- of_option ReError (re_search regex text true) ;;
  match reg with
  | Some mo =>
      g1 <- of_option TypeError (Re.group 1 mo) ;;
      let file_url :=
        if Str.contains "http" g1 then g1 else NASA_APOD_SITE g ++ g1 in
      remote_file <- urlopen E file_url ;;
      match remote_file with
      | Headers (Some content_length) =>
          let filename := PathLib.basename file_url in
          ret (Some (file_url, filename, content_length))
      | Headers None => raise TypeError
      | OpenFails => raise URLError
      end
  | None => ret None
  end.

(** [Path(filename).with_stem(DOWNLOAD_PATH).with_suffix('.png')], line
    251: [DOWNLOAD_PATH] is a [Path], and [with_stem] adds the suffix to
    its argument as to a [str]; the addition raises [TypeError]. *)
Definition save_path (download_path filename : string) : M string :=
  raise TypeError.

(** [get_image], lines 237-283. *)
Definition get_image (text : pytext) : M (option string) :=
  info <- get_image_info "a href" text ;;
  match info with
  | None => ret None
  | Some (file_url, filename, file_size) =>
      g <- get_globals ;;
      save_to <- save_path (DOWNLOAD_PATH g) filename ;;
      fs <- get_files ;;
      if negb (is_file save_to fs) then
        if file_size <? 500 then
          info' <- get_image_info "img src" text ;;
          match info' with
          | None => ret None
          | Some (file_url', filename', file_size') =>
              if file_size' <? 500 then exit
              else urlretrieve E file_url' save_to ;;; ret (Some save_to)
          end
        else urlretrieve E file_url save_to ;;; ret (Some save_to)
      else ret (Some save_to)
  end.

(** [resize_image], lines 286-306.  For a picture of another size, line
    300 looks up [Image.ANTIALIAS] and resizes in memory (a size with a
    side below 1 is refused); line 305 opens the file as a text stream,
    which empties it, and [image.save] raises on its first write of
    [bytes]. *)
Definition resize_image (filename : string) : M unit :=
  g <- get_globals ;;
  fs <- get_files ;;
  match lookup_file filename fs with
  | Some (Image current_x current_y) =>
      if (current_x =? RESOLUTION_X g) && (current_y =? RESOLUTION_Y g)
      then ret tt
      else if negb (pillow_antialias E) then raise AttributeError
      else if negb ((0 <? RESOLUTION_X g) && (0 <? RESOLUTION_Y g))
      then raise ValueError
      else
        log (EvWrite filename) ;;;
        store filename Empty ;;;
        raise TypeError
  | _ => raise OSError
  end.

(** [set_gnome_wallpaper], lines 309-316. *)
Definition set_gnome_wallpaper (file_path : string) : M Z :=
  g <- get_globals ;;
  command <- of_option IndexError (py_format (SET_BG_CMD g) file_path) ;;
  log (EvRun command) ;;;
  ret (shell E command).

(** [images[i]] for an index in range. *)
Definition item (images : list pyobj) (i : nat) : pyobj :=
  nth i images (StrObj EmptyString).

Definition leaf (tag text : string) : xml := Element tag (Some text) [].

(** [element.text = v]: [lxml] takes a [str]; for a [Path] it raises
    [TypeError] ([None]). *)
Definition lxml_text (v : pyobj) : option string :=
  match v with
  | StrObj s => Some s
  | PathObj _ => None
  end.

(** One round of the [for i, image in enumerate(images)] loop, lines
    396-427: the [static] and the [transition] element it appends to
    [background], unless one of the three assignments of a file raises. *)
Definition playlist_entry (g : settings) (images : list pyobj)
    (num_images i : nat) : option (list xml) :=
  match lxml_text (item images i),
        lxml_text (if (i + 1 =? num_images)%nat
                   then item images 0
                   else item images (i + 1)) with
  | Some file, Some next =>
      Some [ Element "static" None
               [ leaf "duration" (Str.py_str (IMAGE_DURATION g));
                 leaf "file" file ];
             Element "transition" None
               [ leaf "duration" "5";
                 leaf "from" file;
                 leaf "to" next ] ]
  | _, _ => None
  end.

Fixpoint playlist_rounds (g : settings) (images : list pyobj)
    (num_images : nat) (rounds : list nat) : option (list xml) :=
  match rounds with
  | [] => Some []
  | i :: rounds' =>
      match playlist_entry g images num_images i with
      | Some entry =>
          option_map (app entry) (playlist_rounds g images num_images rounds')
      | None => None
      end
  end.

(** The [background] element after the loop; [None] when a round raised
    [TypeError]. *)
Definition playlist (g : settings) (images : list pyobj) : option xml :=
  let num_images := List.length images in
  option_map (Element "background" None)
    (playlist_rounds g images num_images (seq 0 num_images)).

(** The [while seed_images_left > 0] loop, lines 359-386.  [fuel] bounds
    the number of rounds; [Spin] reports that it ran out.  The date of
    line 365 does not exist before day 1. *)
Fixpoint seed_loop (fuel : nat) (days_back seed_images_left : Z)
    (images : list string) : M (list string) :=
  if seed_images_left >? 0 then
    match fuel with
    | O => spin
    | S fuel' =>
        let days_back := days_back + 1 in
        g <- get_globals ;;
        let day_to_try := now E - days_back in
        if day_to_try <? 1 then raise OverflowError
        else
          let seed_filename :=
            NASA_APOD_SITE g ++ "ap" ++ strftime_ymd E day_to_try ++ ".html" in
          seed_site_contents <- download_site seed_filename ;;
          if text_eq_str seed_site_contents "error"
          then seed_loop fuel' days_back seed_images_left images
          else
            seed_filename <- get_image seed_site_contents ;;
            match seed_filename with
            | None => seed_loop fuel' days_back seed_images_left images
            | Some f =>
                resize_image f ;;;
                seed_loop fuel' days_back (seed_images_left - 1)
                  (images ++ [f])
            end
    end
  else ret images.

(** Lines 349-388: the images found in the download directory, seeded
    when there are fewer than [SEED_IMAGES].  Every one is a [Path]. *)
Definition collect_images (fuel : nat) : M (list string) :=
  g <- get_globals ;;
  fs <- get_files ;;
  let images := glob_png (DOWNLOAD_PATH g) fs in
  let num_images := Z.of_nat (List.length images) in
  if num_images <? SEED_IMAGES g
  then seed_loop fuel 0 (SEED_IMAGES g) images
  else ret images.

(** [create_desktop_background_scoll], lines 335-432. *)
Definition create_desktop_background_scoll (fuel : nat)
    (filename : option string) : M (option string) :=
  g <- get_globals ;;
  if negb (IMAGE_SCROLL g) then ret filename
  else
    let filename :=
      PathLib.child (DOWNLOAD_PATH g) "nasa_apod_desktop_backgrounds.xml" in
    images <- collect_images fuel ;;
    let images := shuffle E images in
    background <- of_option TypeError (playlist g (map PathObj images)) ;;
    log (EvWrite filename) ;;;
    store filename (Playlist background) ;;;
    ret (Some filename).

(** Lines 478-480: create the download directory when it is missing. *)
Definition ensure_download_dir : M unit :=
  g <- get_globals ;;
  fs <- get_files ;;
  ds <- get_dirs ;;
  let d := expanduser E (DOWNLOAD_PATH g) in
  if is_dir d ds || is_file d fs then ret tt
  else
    log (EvMkdir d) ;;;
    if is_dir (PathLib.parent d) ds then add_dir d else raise OSError.

(** The [__main__] block, lines 467-507.  When [set_download_folder]
    hands back a [str], line 479 asks it for [expanduser] and raises. *)
Definition main (fuel : nat) : M unit :=
  res <- find_resolution ;;
  g <- get_globals ;;
  put_globals (set_resolution (fst res) (snd res) g) ;;;
  download_path <- set_download_folder ;;
  match download_path with
  | StrObj download_path =>
      g <- get_globals ;;
      put_globals (set_download_path download_path g) ;;;
      raise AttributeError
  | PathObj download_path =>
      g <- get_globals ;;
      put_globals (set_download_path download_path g) ;;;
      ensure_download_dir ;;;
      g <- get_globals ;;
      site_contents <- download_site (NASA_APOD_SITE g) ;;
      if text_eq_str site_contents "error" then exit
      else
        filename <- get_image site_contents ;;
        match filename with
        | Some f => resize_image f
        | None => ret tt
        end ;;;
        filename <- create_desktop_background_scoll fuel filename ;;
        match filename with
        | None => exit
        | Some f => status <- set_gnome_wallpaper f ;; ret tt
        end
  end.

End Script.

(** ** Vocabulary of the statements *)

(** The page of the day [days_back] days before today, as line 368 builds
    its address. *)
Definition seed_page (E : env) (g : settings) (days_back : Z) : string :=
  NASA_APOD_SITE g ++ "ap" ++ strftime_ymd E (now E - days_back) ++ ".html".

(** A day the seeding loop passes over: its page is refused with an HTTP
    error, or it decodes and has no anchor to an image. *)
Definition skipped_day (E : env) (g : settings) (days_back : Z) : Prop :=
  (exists code, http_get E (seed_page E g days_back) = HttpError code)
  \/ (exists body,
        http_get E (seed_page E g days_back) = Body body
        /\ Utf8.valid body = true
        /\ re_search "<a href='(image.*?)'" body true = Some None).

(** The size of an operand as against 1024^3. *)
Definition gib : Z := 1024 * 1024 * 1024.

Definition at_least_gib (n : pynum) : Prop :=
  match n with
  | PInt z => gib <= z
  | PFloat (Finite q) => (inject_Z gib <= q)%Q
  | PFloat (Infinite negative) => negative = false
  | PFloat _ => False
  end.

Definition below_gib (n : pynum) : Prop :=
  match n with
  | PInt z => z < gib
  | PFloat (Finite q) => (q < inject_Z gib)%Q
  | PFloat NegZero => True
  | PFloat (Infinite negative) => negative = true
  | PFloat NaN => False
  end.

(** An [int] operand that [float()] takes; a [float] always is one. *)
Definition has_float (n : pynum) : Prop :=
  match n with
  | PInt z => float_of_int z <> None
  | PFloat _ => True
  end.

(** [free_of c s]: the character [c] does not occur in [s]. *)
Fixpoint free_of (c : ascii) (s : string) : bool :=
  match s with
  | EmptyString => true
  | String d s' => negb (Ascii.eqb d c) && free_of c s'
  end.

(** [free_of_braces t]: the template has no brace. *)
Definition free_of_braces (t : string) : bool :=
  free_of "{" t && free_of "}" t.


(** The loop of a quantifier, as [Re.m] runs it. *)
Definition rep_loop {A : Type} (ic greedy : bool) (r' : Re.re)
    (k : string -> Re.caps -> option A) : nat -> string -> Re.caps -> option A :=
  fix loop (fuel : nat) (s : string) (cs : Re.caps) {struct fuel} : option A :=
    match fuel with
    | O => k s cs
    | S f =>
        if greedy then
          match Re.m ic r' s cs (fun s' cs' =>
                  if (String.length s' <? String.length s)%nat
                  then loop f s' cs' else None) with
          | Some x => Some x
          | None => k s cs
          end
        else
          match k s cs with
          | Some x => Some x
          | None =>
              Re.m ic r' s cs (fun s' cs' =>
                if (String.length s' <? String.length s)%nat
                then loop f s' cs' else None)
          end
    end.

(** ** Scenarios *)

Module Scenario.

(** The defaults of the script, with a relative download directory. *)
Definition config (resolution_type : string) (image_scroll : bool)
    (seed_images : Z) : settings :=
  {| DOWNLOAD_PATH := "backgrounds";
     CUSTOM_FOLDER := "nasa-apod-backgrounds";
     RESOLUTION_TYPE := resolution_type;
     RESOLUTION_X := 1024;
     RESOLUTION_Y := 768;
     NASA_APOD_SITE := "http://apod.nasa.gov/apod/";
     IMAGE_SCROLL := image_scroll;
     IMAGE_DURATION := 1200;
     SEED_IMAGES := seed_images;
     SHOW_DEBUG := false;
     SCREEN_UTILITY := "xrandr";
     SET_BG_CMD :=
       "gsettings set org.gnome.desktop.background picture-uri file://{}" |}.

Definition start (g : settings) (fs : list (string * content)) : world :=
  {| globals := g; files := fs; dirs := ["backgrounds"]; trace := [] |}.

(** [xrandr] with a large first and a small second screen. *)
Definition two_screens : string :=
  "Screen 0: minimum 8 x 8, current 2720 x 1080, maximum 32767 x 32767" ++ nl
  ++ "VGA-1 connected 1920x1080+0+0 (normal left inverted right) 510mm x 290mm"
  ++ nl
  ++ "HDMI-1 connected 800x600+1920+0 (normal left inverted right) 300mm x 230mm"
  ++ nl ++ "DP-1 disconnected (normal left inverted right x axis y axis)" ++ nl.

(** Two screens of the same area. *)
Definition equal_screens : string :=
  "VGA-1 connected 800x600+0+0 (normal left inverted right)" ++ nl
  ++ "HDMI-1 connected 600x800+800+0 (normal left inverted right)" ++ nl.

(** A site: the front page, the pages of one, two and three days ago,
    the size and the payload behind every image address.  Today is day 4
    and the page of day [k] is [ap<k>.html]. *)
Definition site (front : http_reply) (days_ago : Z -> http_reply)
    (size : Z) (payload : option content) (display : string) : env :=
  {| screen_utility := fun _ => Some display;
     http_get := fun url =>
       if String.eqb url "http://apod.nasa.gov/apod/" then front
       else if String.eqb url "http://apod.nasa.gov/apod/ap3.html"
       then days_ago 1
       else if String.eqb url "http://apod.nasa.gov/apod/ap2.html"
       then days_ago 2
       else if String.eqb url "http://apod.nasa.gov/apod/ap1.html"
       then days_ago 3
       else NoReply;
     url_open := fun _ => Headers (Some size);
     url_retrieve := fun _ => payload;
     now := 4;
     strftime_ymd := Str.py_str;
     glib_downloads := None;
     expanduser := fun p => p;
     shuffle := @rev string;
     shell := fun _ => 0;
     pillow_antialias := true |}.

(** The same surroundings with another version of Pillow. *)
Definition with_pillow (antialias : bool) (E : env) : env :=
  {| screen_utility := screen_utility E;
     http_get := http_get E;
     url_open := url_open E;
     url_retrieve := url_retrieve E;
     now := now E;
     strftime_ymd := strftime_ymd E;
     glib_downloads := glib_downloads E;
     expanduser := expanduser E;
     shuffle := shuffle E;
     shell := shell E;
     pillow_antialias := antialias |}.


Definition picture_page : string :=
  "<html><body><a href='image/2105/M13_final.jpg'>"
  ++ "<IMG SRC='image/2105/M13_final_1024.jpg'></a></body></html>".

Definition video_page : string :=
  "<html><body><iframe src='https://www.youtube.com/embed/x'></iframe>"
  ++ "</body></html>".

Definition no_day (d : Z) : http_reply := HttpError 404.

(** No page yesterday, a picture the day before. *)
Definition picture_two_days_ago (d : Z) : http_reply :=
  if d =? 2 then Body picture_page else HttpError 404.

(** A page in Latin-1, not in UTF-8, without any image. *)
Definition latin1_page : string :=
  "<html><body>Caf" ++ String (ascii_of_nat 233) "</body></html>".

(** A site that refuses every page. *)
Definition refusing_site : env :=
  {| screen_utility := fun _ => None;
     http_get := fun _ => HttpError 503;
     url_open := fun _ => OpenFails;
     url_retrieve := fun _ => None;
     now := 4;
     strftime_ymd := Str.py_str;
     glib_downloads := None;
     expanduser := fun p => p;
     shuffle := fun l => l;
     shell := fun _ => 0;
     pillow_antialias := true |}.

End Scenario.

(** * Checked properties *)

(** ** The framing of the small steps *)

Lemma download_site_result (E : env) (url : string) (w : world) :
  download_site E url w
  = (match http_get E url with
     | Body b => Ret (Bytes b)
     | HttpError code => Ret (Text ("Error: " ++ Str.py_str code))
     | NoReply => Raise URLError
     end,
     MkWorld (globals w) (files w) (dirs w) (trace w ++ [EvGet url])).
Proof.
  unfold download_site, bind, log, ret, raise; simpl.
  destruct (http_get E url); reflexivity.
Qed.

Lemma lookup_write_same (p : string) (c : content)
    (fs : list (string * content)) :
  lookup_file p (write_file p c fs) = Some c.
Proof.
  induction fs as [|[q c'] fs IH]; simpl.
  - rewrite String.eqb_refl. reflexivity.
  - destruct (String.eqb q p) eqn:Hq; simpl; rewrite Hq; auto.
Qed.

Lemma lookup_write_other (p q : string) (c : content)
    (fs : list (string * content)) :
  q <> p -> lookup_file q (write_file p c fs) = lookup_file q fs.
Proof.
  intros Hne. induction fs as [|[r c'] fs IH]; simpl.
  - destruct (String.eqb_spec p q); [congruence | reflexivity].
  - destruct (String.eqb_spec r p) as [->|Hr]; simpl.
    + destruct (String.eqb_spec p q); [congruence | reflexivity].
    + destruct (String.eqb r q); auto.
Qed.

(** ** The resolution detector *)


(** C1 (code defect).  With a 1920x1080 screen listed before an 800x600
    one, [find_resolution] in ['largest'] mode returns 800x600, the last
    entry and not the one of greatest area; with two screens of equal
    area it returns the second one, not the first. *)
Theorem find_resolution_largest_returns_last_entry :
  fst (find_resolution
         (Scenario.site NoReply Scenario.no_day 0 None Scenario.two_screens)
         (Scenario.start (Scenario.config "largest" true 10) []))
  = Ret (800, 600)
  /\ fst (find_resolution
            (Scenario.site NoReply Scenario.no_day 0 None
               Scenario.equal_screens)
            (Scenario.start (Scenario.config "largest" true 10) []))
     = Ret (600, 800).
Proof. split; vm_compute; reflexivity. Qed.

Lemma largest_loop_no_area (ms : list Re.match_obj) (res : pyval * pyval) :
  Forall (fun m => exists a b,
            int_of (of_group (Re.group 1 m)) = Some a
            /\ int_of (of_group (Re.group 2 m)) = Some b
            /\ a * b <= 0) ms ->
  largest_loop 0 ms res = Some res.
Proof.
  induction 1 as [|m ms (a & b & Ha & Hb & Hab) _ IH]; [reflexivity|].
  cbn [largest_loop]. rewrite Ha, Hb.
  replace (a * b >? 0) with false; [exact IH|].
  symmetry. rewrite Z.gtb_ltb. apply Z.ltb_ge. exact Hab.
Qed.

(** X1.  In ['largest'] mode with [xrandr], when no [connected WxH] entry
    of the output has a positive area (in particular when there is no such
    entry), [find_resolution] returns the configured default pair. *)
Theorem resolution_defaults_without_positive_entry (g : settings)
    (output : string) (ms : list Re.match_obj) :
  SCREEN_UTILITY g = "xrandr" ->
  RESOLUTION_TYPE g = "largest" ->
  re_finditer " connected ([0-9]+)x([0-9]+)+" output = Some ms ->
  Forall (fun m => exists a b,
            int_of (of_group (Re.group 1 m)) = Some a
            /\ int_of (of_group (Re.group 2 m)) = Some b
            /\ a * b <= 0) ms ->
  resolution_of_output g output = Some (RESOLUTION_X g, RESOLUTION_Y g).
Proof.
  intros Hutil Htype Hms Hzero.
  unfold resolution_of_output, detect. rewrite Hutil, Htype. cbn [String.eqb].
  change (String.eqb "xrandr" "xrandr") with true.
  change (String.eqb "largest" "largest") with true. cbv iota.
  rewrite Hms, (largest_loop_no_area ms _ Hzero). reflexivity.
Qed.

Lemma resolution_defaults_without_positive_entry_witness :
  resolution_of_output (Scenario.config "largest" true 10)
    (grep "connected"
       ("DP-1 disconnected (normal left inverted right)" ++ nl
        ++ "VGA-1 connected 0x1080+0+0" ++ nl))
  = Some (1024, 768).
Proof.
  eapply (resolution_defaults_without_positive_entry
            (Scenario.config "largest" true 10)).
  - reflexivity.
  - reflexivity.
  - vm_compute. reflexivity.
  - repeat constructor. exists 0, 1080. vm_compute. repeat split; discriminate.
Defined.



(** ** The matcher: results come from the continuation *)

Lemma m_rep_unfold {A : Type} (ic plus greedy : bool) (r' : Re.re)
    (s : string) (cs : Re.caps) (k : string -> Re.caps -> option A) :
  Re.m ic (Re.Rep plus greedy r') s cs k
  = if plus
    then Re.m ic r' s cs (fun s' cs' =>
           rep_loop ic greedy r' k (S (String.length s')) s' cs')
    else rep_loop ic greedy r' k (S (String.length s)) s cs.
Proof. reflexivity. Qed.

(** Whatever a match returns, it got from its continuation. *)
Lemma m_some_via_k {A : Type} (ic : bool) (r : Re.re) :
  forall (s : string) (cs : Re.caps) (k : string -> Re.caps -> option A)
         (x : A),
    Re.m ic r s cs k = Some x -> exists s' cs', k s' cs' = Some x.
Proof.
  induction r as [| c | | lo hi | r1 IH1 r2 IH2 | plus greedy r' IH | n r' IH];
    intros s cs k x H; [cbn [Re.m] in H .. | rewrite m_rep_unfold in H
                       | cbn [Re.m] in H].
  - eauto.
  - destruct s as [|d s']; [discriminate|].
    destruct (Re.chr_eq ic c d); [eauto |].
    destruct ic; [|discriminate].
    destruct (Re.fold_extra _ _); [eauto | discriminate].
  - destruct s as [|d s']; [discriminate|].
    destruct (Ascii.eqb d Re.newline); [discriminate | eauto].
  - destruct s as [|d s']; [discriminate|].
    destruct (Re.in_range ic lo hi d); [eauto |].
    destruct ic; [|discriminate].
    destruct (Re.range_extra _ _ _); [eauto | discriminate].
  - apply IH1 in H as (s1 & c1 & H). apply IH2 in H. exact H.
  - assert (Hloop : forall fuel s0 cs0,
               rep_loop ic greedy r' k fuel s0 cs0 = Some x ->
               exists s' cs', k s' cs' = Some x).
    { induction fuel as [|fuel IHf]; intros s0 cs0 H0;
        cbn [rep_loop] in H0; [eauto|].
      destruct greedy.
      - destruct (Re.m ic r' s0 cs0 _) as [y|] eqn:Hm.
        + inversion H0; subst y. apply IH in Hm as (s1 & c1 & Hm).
          destruct (String.length s1 <? String.length s0)%nat;
            [eauto | discriminate].
        + eauto.
      - destruct (k s0 cs0) as [y|] eqn:Hk.
        + inversion H0; subst y. eauto.
        + apply IH in H0 as (s1 & c1 & Hm).
          destruct (String.length s1 <? String.length s0)%nat;
            [eauto | discriminate]. }
    destruct plus.
    + apply IH in H as (s1 & c1 & H). eauto.
    + eauto.
  - apply IH in H as (s1 & c1 & H). eauto.
Qed.

Lemma m_cat_unfold {A : Type} (ic : bool) (r1 r2 : Re.re) (s : string)
    (cs : Re.caps) (k : string -> Re.caps -> option A) :
  Re.m ic (Re.Cat r1 r2) s cs k
  = Re.m ic r1 s cs (fun s1 c1 => Re.m ic r2 s1 c1 k).
Proof. reflexivity. Qed.

Lemma prefix_n_zero (s : string) : Str.prefix_n 0 s = EmptyString.
Proof. destruct s; reflexivity. Qed.

(** A lazy [(.*?)] at the very end of a pattern captures nothing. *)
Lemma trailing_lazy_group_is_empty (ic : bool) (n : nat) (from s : string)
    (cs : Re.caps) (mo : Re.match_obj) :
  Re.m ic (Re.Grp n (Re.Rep false false Re.Dot)) s cs
    (fun s' cs' => Some (Re.MkMatch from s' cs')) = Some mo ->
  Re.group n mo = Some EmptyString.
Proof.
  cbn. intros H. inversion H; subst mo.
  unfold Re.group. cbn. rewrite Nat.eqb_refl, Nat.sub_diag, prefix_n_zero.
  reflexivity.
Qed.

Lemma displayplacer_current_second_group (output : string)
    (mo : Re.match_obj) :
  re_search "res:(.*?)x(.*?)" output false = Some (Some mo) ->
  Re.group 2 mo = Some EmptyString.
Proof.
  unfold re_search.
  assert (Hc : exists r, Re.compile "res:(.*?)x(.*?)"
                 = Some (Re.Cat (Re.Chr "r") (Re.Cat (Re.Chr "e")
                     (Re.Cat (Re.Chr "s") (Re.Cat (Re.Chr ":")
                       (Re.Cat r (Re.Cat (Re.Chr "x")
                          (Re.Grp 2 (Re.Rep false false Re.Dot)))))))))
    by (eexists; vm_compute; reflexivity).
  destruct Hc as [r ->]. cbn [option_map]. intros H. inversion H as [Hs].
  clear H. induction output as [|c output IH]; cbn [Re.search] in Hs.
  - unfold Re.match_at in Hs. cbn in Hs. discriminate.
  - destruct (Re.match_at false _ (String c output)) as [mo'|] eqn:Hat.
    + inversion Hs; subst mo'. unfold Re.match_at in Hat.
      do 6 (rewrite m_cat_unfold in Hat;
            apply m_some_via_k in Hat as (? & ? & Hat)).
      exact (trailing_lazy_group_is_empty _ _ _ _ _ _ Hat).
    + exact (IH Hs).
Qed.

(** X3.  With [displayplacer] and a [RESOLUTION_TYPE] other than
    ['default'] and ['largest'], the pattern [res:(.*?)x(.*?)] leaves the
    height empty, so [find_resolution] returns the configured default
    pair whatever the utility prints. *)
Theorem displayplacer_current_always_defaults (g : settings)
    (output : string) :
  String.eqb (SCREEN_UTILITY g) "xrandr" = false ->
  Str.contains "displayplacer" (SCREEN_UTILITY g) = true ->
  String.eqb (RESOLUTION_TYPE g) "largest" = false ->
  resolution_of_output g output = Some (RESOLUTION_X g, RESOLUTION_Y g).
Proof.
  intros Hx Hd Ht. unfold resolution_of_output, detect.
  rewrite Hx, Hd, Ht.
  destruct (re_search "res:(.*?)x(.*?)" output false) as [[mo|]|] eqn:Hre.
  - cbn [option_map current_groups].
    rewrite (displayplacer_current_second_group output mo Hre).
    unfold finish_resolution. cbn [fst snd of_group truthy String.eqb negb].
    rewrite andb_false_r. reflexivity.
  - reflexivity.
  - exfalso. unfold re_search in Hre. vm_compute in Hre. discriminate.
Qed.

Lemma displayplacer_current_always_defaults_witness :
  resolution_of_output
    (MkSettings "backgrounds" "nasa-apod-backgrounds" "stretch" 1024 768
       "http://apod.nasa.gov/apod/" true 1200 10 false "displayplacer list"
       "gsettings set org.gnome.desktop.background picture-uri file://{}")
    "Resolution: res:1920x1080 hz:60 color_depth:8"
  = Some (1024, 768).
Proof.
  apply displayplacer_current_always_defaults; vm_compute; reflexivity.
Defined.

(** ** [download_site], [get_image_info] and [get_image] *)

(** X4.  Whatever the site answers, the reply of [download_site] never
    compares equal to ['error'], the value its callers test for. *)
Theorem download_site_reply_is_never_error (E : env) (url : string)
    (w w' : world) (t : pytext) :
  download_site E url w = (Ret t, w') -> text_eq_str t "error" = false.
Proof.
  rewrite download_site_result.
  destruct (http_get E url); intros H; inversion H; reflexivity.
Qed.

Lemma download_site_reply_is_never_error_witness :
  text_eq_str (Text "Error: 500") "error" = false.
Proof.
  apply (download_site_reply_is_never_error
           (Scenario.site (HttpError 500) Scenario.no_day 0 None
              Scenario.two_screens)
           "http://apod.nasa.gov/apod/"
           (Scenario.start (Scenario.config "default" true 10) [])
           (MkWorld (Scenario.config "default" true 10) [] ["backgrounds"]
              [EvGet "http://apod.nasa.gov/apod/"])).
  vm_compute. reflexivity.
Defined.

(** When the page decodes and the pattern does not occur in it,
    [get_image_info] returns the empty triple and touches nothing. *)
Lemma get_image_info_none (E : env) (element : string) (text : pytext)
    (s : string) (w : world) :
  decode text = Some s ->
  re_search ("<" ++ element ++ "='(image.*?)'") s true = Some None ->
  get_image_info E element text w = (Ret None, w).
Proof.
  intros Hd H. unfold get_image_info, bind, get_globals.
  rewrite Hd. cbn [of_option ret]. rewrite H. reflexivity.
Qed.

(** [get_image_info] has no third way to end: the empty triple, or an
    exception; the world stays as it is. *)
Lemma get_image_info_result (E : env) (element : string) (text : pytext)
    (w : world) :
  get_image_info E element text w = (Ret None, w)
  \/ exists e, get_image_info E element text w = (Raise e, w).
Proof.
  unfold get_image_info, bind, get_globals, of_option, ret, raise, urlopen.
  destruct (decode text) as [s|]; [|right; eexists; reflexivity].
  destruct (re_search _ s true) as [[mo|]|];
    [| left; reflexivity | right; eexists; reflexivity].
  destruct (Re.group 1 mo) as [g1|]; right; eexists; reflexivity.
Qed.

(** Without the anchor pattern [get_image] stops at its first test. *)
Lemma get_image_no_anchor (E : env) (text : pytext) (s : string) (w : world) :
  decode text = Some s ->
  re_search "<a href='(image.*?)'" s true = Some None ->
  get_image E text w = (Ret None, w).
Proof.
  intros Hd Ha. unfold get_image, bind.
  rewrite (get_image_info_none E "a href" text s w Hd Ha). reflexivity.
Qed.

(** [get_image] ends as its first [get_image_info] does. *)
Lemma get_image_result (E : env) (text : pytext) (w : world) :
  get_image E text w = (Ret None, w)
  \/ exists e, get_image E text w = (Raise e, w).
Proof.
  unfold get_image, bind.
  destruct (get_image_info_result E "a href" text w) as [H|[e H]];
    rewrite H; eauto.
Qed.

(** C7, as it holds.  A page that decodes as UTF-8 and has neither the
    anchor pattern nor the inline-image pattern makes [get_image] return
    [None]; the world is left exactly as it was: nothing is requested,
    retrieved or written. *)
Theorem get_image_none_without_pattern (E : env) (text : pytext)
    (s : string) (w : world) :
  decode text = Some s ->
  re_search "<a href='(image.*?)'" s true = Some None ->
  re_search "<img src='(image.*?)'" s true = Some None ->
  get_image E text w = (Ret None, w).
Proof. intros Hd Ha _. exact (get_image_no_anchor E text s w Hd Ha). Qed.

Lemma get_image_none_without_pattern_witness :
  get_image
    (Scenario.site (Body Scenario.video_page) Scenario.no_day 0 None
       Scenario.two_screens)
    (Bytes Scenario.video_page)
    (Scenario.start (Scenario.config "default" true 10) [])
  = (Ret None, Scenario.start (Scenario.config "default" true 10) []).
Proof.
  apply (get_image_none_without_pattern _ _ Scenario.video_page);
    vm_compute; reflexivity.
Defined.

(** C7, as it is worded, fails: a page in Latin-1 has neither pattern,
    and [get_image] ends with the [UnicodeDecodeError] of line 440. *)
Lemma get_image_raises_on_undecodable_page :
  let w := Scenario.start (Scenario.config "default" true 10) [] in
  re_search "<a href='(image.*?)'" Scenario.latin1_page true = Some None
  /\ re_search "<img src='(image.*?)'" Scenario.latin1_page true = Some None
  /\ get_image
       (Scenario.site (Body Scenario.latin1_page) Scenario.no_day 0 None
          Scenario.two_screens)
       (Bytes Scenario.latin1_page) w
     = (Raise UnicodeDecodeError, w).
Proof. repeat split; vm_compute; reflexivity. Qed.

(** *** Texts without [<] *)

Lemma chr_eq_lt (d : ascii) :
  Ascii.eqb d "<" = false -> Re.chr_eq true "<" d = false.
Proof.
  destruct d as [[] [] [] [] [] [] [] []]; vm_compute; congruence.
Qed.

(** No character outside ASCII folds onto [<]. *)
Lemma fold_extra_lt (s : string) : Re.fold_extra (Str.lower "<") s = None.
Proof. destruct s as [|a [|b [|c r]]]; reflexivity. Qed.

(** A pattern that starts with [<] finds nothing in a text without [<]. *)
Lemma search_needs_lt (r : Re.re) (s : string) :
  free_of "<" s = true -> Re.search true (Re.Cat (Re.Chr "<") r) s = None.
Proof.
  induction s as [|d s IH]; intros Hfree; [reflexivity|].
  simpl in Hfree. apply andb_true_iff in Hfree as [Hd Hs].
  apply negb_true_iff in Hd.
  cbn [Re.search]. unfold Re.match_at. cbn [Re.m].
  rewrite (chr_eq_lt d Hd), fold_extra_lt. apply IH, Hs.
Qed.

Lemma digit_char_free (k : Z) :
  0 <= k < 10 -> Ascii.eqb (Str.digit_char k) "<" = false.
Proof.
  intros Hk.
  assert (H : k = 0 \/ k = 1 \/ k = 2 \/ k = 3 \/ k = 4 \/ k = 5 \/ k = 6
              \/ k = 7 \/ k = 8 \/ k = 9) by lia.
  repeat (destruct H as [H|H]; [subst k; reflexivity|]).
  subst k; reflexivity.
Qed.

Lemma nat_digits_free (fuel : nat) (n : Z) (acc : string) :
  free_of "<" acc = true -> free_of "<" (Str.nat_digits fuel n acc) = true.
Proof.
  revert n acc. induction fuel as [|fuel IH]; intros n acc Hacc; [exact Hacc|].
  cbn [Str.nat_digits].
  assert (Hstep : free_of "<" (String (Str.digit_char (n mod 10)) acc) = true).
  { simpl. rewrite digit_char_free by (apply Z.mod_pos_bound; lia).
    exact Hacc. }
  destruct (n <? 10); [exact Hstep | apply IH, Hstep].
Qed.

Lemma py_str_free (n : Z) : free_of "<" (Str.py_str n) = true.
Proof.
  unfold Str.py_str. destruct (n <? 0).
  - cbn [free_of]. change (Ascii.eqb "-" "<") with false. cbn [negb andb].
    apply nat_digits_free. reflexivity.
  - apply nat_digits_free. reflexivity.
Qed.

(** The text [download_site] builds for an HTTP error has no image. *)
Lemma error_text_has_no_anchor (code : Z) :
  re_search "<a href='(image.*?)'" ("Error: " ++ Str.py_str code) true
  = Some None.
Proof.
  unfold re_search.
  assert (Hc : exists r, Re.compile "<a href='(image.*?)'"
                         = Some (Re.Cat (Re.Chr "<") r))
    by (eexists; vm_compute; reflexivity).
  destruct Hc as [r ->]. cbn [option_map]. f_equal.
  apply search_needs_lt.
  transitivity (free_of "<" (Str.py_str code)); [reflexivity|].
  apply py_str_free.
Qed.

(** X5.  The text [download_site] builds for an HTTP error, handed to
    [get_image] as the callers do, is a page without image: [get_image]
    returns [None] and touches nothing. *)
Theorem get_image_on_error_marker (E : env) (code : Z) (w : world) :
  get_image E (Text ("Error: " ++ Str.py_str code)) w = (Ret None, w).
Proof.
  apply (get_image_no_anchor E _ ("Error: " ++ Str.py_str code));
    [reflexivity | apply error_text_has_no_anchor].
Qed.

(** X6.  However it ends, [get_image_info] leaves the files, the
    directories and the globals as they are, and it opens at most one
    remote address. *)
Theorem get_image_info_frame (E : env) (element : string) (text : pytext)
    (w : world) :
  let w' := snd (get_image_info E element text w) in
  files w' = files w /\ dirs w' = dirs w /\ globals w' = globals w
  /\ (trace w' = trace w
      \/ exists url, trace w' = (trace w ++ [EvOpen url])%list).
Proof.
  destruct (get_image_info_result E element text w) as [H|[e H]];
    rewrite H; cbn; auto.
Qed.

(** *** A page with an image anchor *)

(** A match of the anchor pattern has its group 1. *)
Lemma anchor_match_has_group (s : string) (mo : Re.match_obj) :
  re_search "<a href='(image.*?)'" s true = Some (Some mo) ->
  exists g1, Re.group 1 mo = Some g1.
Proof.
  unfold re_search.
  assert (Hc : exists r q,
             Re.compile "<a href='(image.*?)'"
             = Some (Re.Cat (Re.Chr "<") (Re.Cat (Re.Chr "a")
                 (Re.Cat (Re.Chr " ") (Re.Cat (Re.Chr "h")
                   (Re.Cat (Re.Chr "r") (Re.Cat (Re.Chr "e")
                     (Re.Cat (Re.Chr "f") (Re.Cat (Re.Chr "=")
                       (Re.Cat (Re.Chr "'")
                          (Re.Cat (Re.Grp 1 r) (Re.Chr q))))))))))))
    by (do 2 eexists; vm_compute; reflexivity).
  destruct Hc as (r & q & ->). cbn [option_map]. intros H.
  inversion H as [Hs]. clear H.
  induction s as [|c s IH]; cbn [Re.search] in Hs.
  - unfold Re.match_at in Hs. cbn in Hs. discriminate.
  - destruct (Re.match_at true _ (String c s)) as [mo'|] eqn:Hat.
    + inversion Hs; subst mo'. unfold Re.match_at in Hat.
      do 9 (rewrite m_cat_unfold in Hat;
            apply m_some_via_k in Hat as (? & ? & Hat)).
      rewrite m_cat_unfold in Hat. cbn [Re.m] in Hat.
      apply m_some_via_k in Hat as (s1 & c1 & Hat).
      destruct s1 as [|d s1]; [discriminate|].
      destruct (Re.chr_eq true q d).
      * inversion Hat; subst mo. unfold Re.group. cbn. eauto.
      * destruct (Re.fold_extra _ _); [|discriminate].
        inversion Hat; subst mo. unfold Re.group. cbn. eauto.
    + exact (IH Hs).
Qed.

(** With the anchor pattern in the decoded page, [get_image] stops at
    [urllib.urlopen]. *)
Lemma get_image_on_anchor (E : env) (text : pytext) (s : string)
    (mo : Re.match_obj) (w : world) :
  decode text = Some s ->
  re_search "<a href='(image.*?)'" s true = Some (Some mo) ->
  get_image E text w = (Raise AttributeError, w).
Proof.
  intros Hd Hre. destruct (anchor_match_has_group s mo Hre) as [g1 Hg].
  change (re_search ("<" ++ "a href" ++ "='(image.*?)'") s true
          = Some (Some mo)) in Hre.
  unfold get_image, get_image_info, bind, get_globals.
  rewrite Hd. cbn [of_option ret]. rewrite Hre. cbn [of_option ret].
  rewrite Hg. reflexivity.
Qed.

(** X8.  On a page that decodes and has an image anchor, [get_image]
    ends with the [AttributeError] of line 459 ([urllib.urlopen]): it
    requests nothing, writes nothing and returns no path. *)
Theorem get_image_raises_on_anchor (E : env) (text : pytext) (s : string)
    (mo : Re.match_obj) (w : world) :
  decode text = Some s ->
  re_search "<a href='(image.*?)'" s true = Some (Some mo) ->
  get_image E text w = (Raise AttributeError, w).
Proof. apply get_image_on_anchor. Qed.

Lemma get_image_raises_on_anchor_witness :
  get_image
    (Scenario.site (Body Scenario.picture_page) Scenario.no_day 250000
       (Some (Image 1920 1080)) Scenario.two_screens)
    (Bytes Scenario.picture_page)
    (Scenario.start (Scenario.config "default" true 10) [])
  = (Raise AttributeError,
     Scenario.start (Scenario.config "default" true 10) []).
Proof.
  pose (r := match Re.compile "<a href='(image.*?)'" with
             | Some r => r
             | None => Re.Eps
             end).
  apply (get_image_raises_on_anchor _ _ Scenario.picture_page
           (match Re.search true r Scenario.picture_page with
            | Some mo => mo
            | None => Re.MkMatch "" "" []
            end));
    vm_compute; reflexivity.
Defined.

(** X7.  [get_image] never returns a path: it returns [None] or ends
    with an exception, and in both cases the files, the directories, the
    globals and the trace are as they were. *)
Theorem get_image_returns_no_path (E : env) (text : pytext) (w : world) :
  get_image E text w = (Ret None, w)
  \/ exists e, get_image E text w = (Raise e, w).
Proof. exact (get_image_result E text w). Qed.

(** C5 (code defect).  The front page has an image anchor and the server
    would announce 120 bytes for every image.  [get_image] never gets to
    a size test: it ends with [AttributeError] at line 459, and so does
    the whole run, with nothing written. *)
Theorem get_image_small_payloads_raise :
  let E := Scenario.site (Body Scenario.picture_page) Scenario.no_day 120
             (Some Blob) Scenario.two_screens in
  let w := Scenario.start (Scenario.config "default" true 0) [] in
  get_image E (Bytes Scenario.picture_page) w = (Raise AttributeError, w)
  /\ fst (main E 0 w) = Raise AttributeError
  /\ files (snd (main E 0 w)) = []
  /\ trace (snd (main E 0 w)) = [EvGet "http://apod.nasa.gov/apod/"].
Proof. repeat split; vm_compute; reflexivity. Qed.

(** C6 (code defect).  The picture of the page is already in the
    download directory.  [get_image] does not get to look for it: it
    ends with [AttributeError] at line 459 and returns no file; the run
    ends there. *)
Theorem get_image_never_reaches_existing_file :
  let E := Scenario.site (Body Scenario.picture_page) Scenario.no_day 250000
             (Some (Image 1920 1080)) Scenario.two_screens in
  let w := Scenario.start (Scenario.config "default" true 0)
             [("backgrounds/M13_final.png", Image 1024 768)] in
  get_image E (Bytes Scenario.picture_page) w = (Raise AttributeError, w)
  /\ fst (main E 0 w) = Raise AttributeError
  /\ files (snd (main E 0 w)) = files w
  /\ trace (snd (main E 0 w)) = [EvGet "http://apod.nasa.gov/apod/"].
Proof. repeat split; vm_compute; reflexivity. Qed.

(** ** [resize_image] *)

(** C8 (code defect).  A picture of 1920x1080 with the target 1024x768.
    With a Pillow that still has [Image.ANTIALIAS], [resize_image] opens
    the file for writing as text, which empties it, and ends with the
    [TypeError] of [image.save]: the picture is gone, and a second call
    finds no image.  With Pillow 10 it ends with [AttributeError] at line
    300 and leaves the picture at its old size. *)
Theorem resize_image_destroys_other_sizes :
  let E := Scenario.site NoReply Scenario.no_day 0 None Scenario.two_screens in
  let p := "backgrounds/m31.png" in
  let w := Scenario.start (Scenario.config "default" true 10)
             [(p, Image 1920 1080)] in
  let w' := MkWorld (globals w) [(p, Empty)] (dirs w) [EvWrite p] in
  resize_image E p w = (Raise TypeError, w')
  /\ resize_image E p w' = (Raise OSError, w')
  /\ resize_image (Scenario.with_pillow false E) p w
     = (Raise AttributeError, w).
Proof. repeat split; vm_compute; reflexivity. Qed.

(** X11.  On a picture whose size is not the target, [resize_image]
    never returns: it ends with an exception, and the file is then as it
    was or empty, never a picture of the target size; no other file
    changes. *)
Theorem resize_image_never_resizes (E : env) (w : world) (filename : string)
    (x y : Z) :
  lookup_file filename (files w) = Some (Image x y) ->
  (x =? RESOLUTION_X (globals w)) && (y =? RESOLUTION_Y (globals w)) = false ->
  exists e w',
    resize_image E filename w = (Raise e, w')
    /\ (lookup_file filename (files w') = Some (Image x y)
        \/ lookup_file filename (files w') = Some Empty)
    /\ forall q, q <> filename ->
         lookup_file q (files w') = lookup_file q (files w).
Proof.
  intros Hlook Hsize.
  unfold resize_image, bind, get_globals, get_files.
  rewrite Hlook, Hsize.
  destruct (pillow_antialias E); cbn [negb].
  - destruct ((0 <? RESOLUTION_X (globals w))
              && (0 <? RESOLUTION_Y (globals w))); cbn [negb].
    + do 2 eexists. split; [reflexivity|]. cbn. split.
      * right. apply lookup_write_same.
      * intros q Hq. apply lookup_write_other, Hq.
    + do 2 eexists. split; [reflexivity|]. auto.
  - do 2 eexists. split; [reflexivity|]. auto.
Qed.

Lemma resize_image_never_resizes_witness :
  let E := Scenario.site NoReply Scenario.no_day 0 None Scenario.two_screens in
  let w := Scenario.start (Scenario.config "default" true 10)
             [("backgrounds/m31.png", Image 1920 1080);
              ("backgrounds/m42.png", Image 1024 768)] in
  exists e w',
    resize_image E "backgrounds/m31.png" w = (Raise e, w')
    /\ (lookup_file "backgrounds/m31.png" (files w') = Some (Image 1920 1080)
        \/ lookup_file "backgrounds/m31.png" (files w') = Some Empty)
    /\ forall q, q <> "backgrounds/m31.png" ->
         lookup_file q (files w') = lookup_file q (files w).
Proof.
  intros E w.
  apply (resize_image_never_resizes E w "backgrounds/m31.png" 1920 1080);
    reflexivity.
Defined.

(** X12.  On a picture that already has the target size, [resize_image]
    returns and leaves the world exactly as it was, with either Pillow. *)
Theorem resize_image_keeps_target_size (E : env) (w : world)
    (filename : string) :
  lookup_file filename (files w)
  = Some (Image (RESOLUTION_X (globals w)) (RESOLUTION_Y (globals w))) ->
  resize_image E filename w = (Ret tt, w).
Proof.
  intros Hlook. unfold resize_image, bind, get_globals, get_files.
  rewrite Hlook, !Z.eqb_refl. reflexivity.
Qed.

Lemma resize_image_keeps_target_size_witness :
  let E := Scenario.with_pillow false
             (Scenario.site NoReply Scenario.no_day 0 None
                Scenario.two_screens) in
  let w := Scenario.start (Scenario.config "default" true 10)
             [("backgrounds/m42.png", Image 1024 768)] in
  resize_image E "backgrounds/m42.png" w = (Ret tt, w).
Proof.
  intros E w. apply (resize_image_keeps_target_size E w). reflexivity.
Defined.

(** X13.  On a path that names no file, or a file that is no image,
    [resize_image] raises and leaves the world as it was. *)
Theorem resize_image_needs_an_image (E : env) (w : world)
    (filename : string) :
  (forall x y, lookup_file filename (files w) <> Some (Image x y)) ->
  resize_image E filename w = (Raise OSError, w).
Proof.
  intros Hno. unfold resize_image, bind, get_globals, get_files.
  destruct (lookup_file filename (files w)) as [[x y| | |]|] eqn:Hlook;
    try reflexivity.
  exfalso. exact (Hno x y eq_refl).
Qed.

Lemma resize_image_needs_an_image_witness :
  let E := Scenario.site NoReply Scenario.no_day 0 None Scenario.two_screens in
  let w := Scenario.start (Scenario.config "default" true 10)
             [("backgrounds/page.png", Blob)] in
  resize_image E "backgrounds/page.png" w = (Raise OSError, w)
  /\ resize_image E "backgrounds/none.png" w = (Raise OSError, w).
Proof.
  intros E w. split; apply resize_image_needs_an_image; intros x y H;
    vm_compute in H; discriminate H.
Defined.

(** ** [set_gnome_wallpaper] *)

Lemma app_nil_str (s : string) : s ++ "" = s.
Proof. induction s as [|c s IH]; cbn; congruence. Qed.

Lemma format_aux_plain (t arg : string) (used : bool) :
  free_of_braces t = true -> format_aux t arg used = Some t.
Proof.
  unfold free_of_braces. induction t as [|c t IH]; intros H; [reflexivity|].
  cbn [free_of] in H.
  apply andb_true_iff in H as [H1 H2].
  apply andb_true_iff in H1 as [Hc1 Ht1].
  apply andb_true_iff in H2 as [Hc2 Ht2].
  apply negb_true_iff in Hc1, Hc2.
  assert (IH' : format_aux t arg used = Some t)
    by (apply IH; rewrite Ht1, Ht2; reflexivity).
  destruct (Ascii.eqb_spec c "{"); [discriminate|].
  destruct (Ascii.eqb_spec c "}"); [discriminate|].
  destruct c as [[] [] [] [] [] [] [] []]; cbn [format_aux]; rewrite ?IH';
    try reflexivity; congruence.
Qed.

Lemma format_aux_field_last (t arg : string) :
  free_of_braces t = true ->
  format_aux (t ++ "{}") arg false = Some (t ++ arg).
Proof.
  unfold free_of_braces. induction t as [|c t IH]; intros H.
  - cbn. rewrite app_nil_str. reflexivity.
  - cbn [free_of] in H.
    apply andb_true_iff in H as [H1 H2].
    apply andb_true_iff in H1 as [Hc1 Ht1].
    apply andb_true_iff in H2 as [Hc2 Ht2].
    apply negb_true_iff in Hc1, Hc2.
    assert (IH' : format_aux (t ++ "{}") arg false = Some (t ++ arg))
      by (apply IH; rewrite Ht1, Ht2; reflexivity).
    destruct (Ascii.eqb_spec c "{"); [discriminate|].
    destruct (Ascii.eqb_spec c "}"); [discriminate|].
    destruct c as [[] [] [] [] [] [] [] []]; cbn [append format_aux];
      rewrite ?IH'; try reflexivity; congruence.
Qed.

(** X14.  With a command template that ends in its one field [{}], as
    the default does, [set_gnome_wallpaper] runs the template text
    followed by the file path, returns the return code of that command
    and changes nothing else. *)
Theorem set_gnome_wallpaper_runs_template (E : env) (w : world)
    (prefix file_path : string) :
  SET_BG_CMD (globals w) = prefix ++ "{}" ->
  free_of_braces prefix = true ->
  set_gnome_wallpaper E file_path w
  = (Ret (shell E (prefix ++ file_path)),
     MkWorld (globals w) (files w) (dirs w)
       (trace w ++ [EvRun (prefix ++ file_path)])).
Proof.
  intros Hcmd Hfree.
  unfold set_gnome_wallpaper, bind, get_globals, of_option, py_format.
  rewrite Hcmd, (format_aux_field_last prefix file_path Hfree). reflexivity.
Qed.

Lemma set_gnome_wallpaper_runs_template_witness :
  let E := Scenario.site NoReply Scenario.no_day 0 None Scenario.two_screens in
  let w := Scenario.start (Scenario.config "default" true 10) [] in
  fst (set_gnome_wallpaper E "backgrounds/m31.png" w) = Ret 0
  /\ trace (snd (set_gnome_wallpaper E "backgrounds/m31.png" w))
     = [EvRun ("gsettings set org.gnome.desktop.background picture-uri "
               ++ "file://backgrounds/m31.png")].
Proof.
  intros E w.
  rewrite (set_gnome_wallpaper_runs_template E w
             "gsettings set org.gnome.desktop.background picture-uri file://"
             "backgrounds/m31.png"); [| reflexivity | reflexivity].
  split; reflexivity.
Defined.

(** X15.  With a command template without any brace, the file path is
    dropped: [set_gnome_wallpaper] runs the template as it stands. *)
Theorem set_gnome_wallpaper_without_field (E : env) (w : world)
    (file_path : string) :
  free_of_braces (SET_BG_CMD (globals w)) = true ->
  set_gnome_wallpaper E file_path w
  = (Ret (shell E (SET_BG_CMD (globals w))),
     MkWorld (globals w) (files w) (dirs w)
       (trace w ++ [EvRun (SET_BG_CMD (globals w))])).
Proof.
  intros Hfree.
  unfold set_gnome_wallpaper, bind, get_globals, of_option, py_format.
  rewrite (format_aux_plain _ file_path false Hfree). reflexivity.
Qed.

Lemma set_gnome_wallpaper_without_field_witness :
  let E := Scenario.site NoReply Scenario.no_day 0 None Scenario.two_screens in
  let g := MkSettings "backgrounds" "nasa-apod-backgrounds" "default" 1024 768
             "http://apod.nasa.gov/apod/" true 1200 10 false "xrandr"
             "feh --bg-fill backgrounds/today.png" in
  trace (snd (set_gnome_wallpaper E "backgrounds/m31.png"
                (Scenario.start g [])))
  = [EvRun "feh --bg-fill backgrounds/today.png"].
Proof.
  intros E g.
  rewrite (set_gnome_wallpaper_without_field E (Scenario.start g [])
             "backgrounds/m31.png"); reflexivity.
Defined.

(** ** [human_readable_size] and [print_download_status] *)

Lemma div_1024_exact (q : Q) : (1024 * (q / 1024) == q)%Q.
Proof. apply Qmult_div_r. discriminate. Qed.

(** X16.  [human_readable_size] prints the size in the first of the units
    bytes, KB, MB in which it is below 1024, dividing by 1024 per unit. *)
Theorem human_readable_size_units (number_bytes : Q) :
  ((number_bytes < 1024)%Q ->
   human_readable_size number_bytes
   = Some (format_3_2f number_bytes ++ "bytes"))
  /\ ((1024 <= number_bytes)%Q -> (number_bytes < 1024 * 1024)%Q ->
      human_readable_size number_bytes
      = Some (format_3_2f (number_bytes / 1024) ++ "KB"))
  /\ ((1024 * 1024 <= number_bytes)%Q ->
      (number_bytes < 1024 * 1024 * 1024)%Q ->
      human_readable_size number_bytes
      = Some (format_3_2f (number_bytes / 1024 / 1024) ++ "MB")).
Proof.
  unfold human_readable_size; cbn [human_readable_size_loop].
  pose proof (div_1024_exact number_bytes) as D1.
  pose proof (div_1024_exact (number_bytes / 1024)) as D2.
  destruct (Qlt_le_dec number_bytes 1024) as [H1|H1];
    [repeat split; intros; (reflexivity || lra)|].
  destruct (Qlt_le_dec (number_bytes / 1024) 1024) as [H2|H2];
    [repeat split; intros; (reflexivity || lra)|].
  destruct (Qlt_le_dec (number_bytes / 1024 / 1024) 1024) as [H3|H3];
    repeat split; intros; (reflexivity || lra).
Qed.

Lemma human_readable_size_units_witness :
  human_readable_size 512 = Some "512.00bytes"
  /\ human_readable_size 250000 = Some "244.14KB"
  /\ human_readable_size 5242880 = Some "5.00MB".
Proof.
  destruct (human_readable_size_units 512) as (H1 & _ & _).
  destruct (human_readable_size_units 250000) as (_ & H2 & _).
  destruct (human_readable_size_units 5242880) as (_ & _ & H3).
  rewrite H1, H2, H3; try (vm_compute; reflexivity);
    try (vm_compute; discriminate).
  repeat split; vm_compute; reflexivity.
Defined.

Lemma human_readable_size_none (number_bytes : Q) :
  (1024 * 1024 * 1024 <= number_bytes)%Q ->
  human_readable_size number_bytes = None.
Proof.
  intros H. unfold human_readable_size; cbn [human_readable_size_loop].
  pose proof (div_1024_exact number_bytes) as D1.
  pose proof (div_1024_exact (number_bytes / 1024)) as D2.
  destruct (Qlt_le_dec number_bytes 1024) as [H1|H1]; [lra|].
  destruct (Qlt_le_dec (number_bytes / 1024) 1024) as [H2|H2]; [lra|].
  destruct (Qlt_le_dec (number_bytes / 1024 / 1024) 1024) as [H3|H3]; [lra|].
  reflexivity.
Qed.

Lemma human_readable_size_some (number_bytes : Q) :
  (number_bytes < 1024 * 1024 * 1024)%Q ->
  exists s, human_readable_size number_bytes = Some s.
Proof.
  intros H. unfold human_readable_size; cbn [human_readable_size_loop].
  pose proof (div_1024_exact number_bytes) as D1.
  pose proof (div_1024_exact (number_bytes / 1024)) as D2.
  destruct (Qlt_le_dec number_bytes 1024) as [H1|H1]; [eauto|].
  destruct (Qlt_le_dec (number_bytes / 1024) 1024) as [H2|H2]; [eauto|].
  destruct (Qlt_le_dec (number_bytes / 1024 / 1024) 1024) as [H3|H3];
    [eauto | lra].
Qed.

(** *** The function on any number *)

(** On a finite [float] the loop is the loop on its exact value. *)
Lemma human_readable_size_of_loop_finite (units : list string) (q : Q) :
  human_readable_size_of_loop units (PFloat (Finite q))
  = Ret (human_readable_size_loop units q).
Proof.
  revert q. induction units as [|x units IH]; intros q; [reflexivity|].
  cbn [human_readable_size_of_loop human_readable_size_loop below_1024
       format_size divide_by_1024].
  destruct (Qlt_le_dec q 1024); [reflexivity | apply IH].
Qed.

Lemma human_readable_size_of_finite (q : Q) :
  human_readable_size_of (PFloat (Finite q)) = Ret (human_readable_size q).
Proof. apply human_readable_size_of_loop_finite. Qed.

(** An [int] of fewer than 54 bits is its own [float]. *)
Lemma float_of_int_small (z : Z) :
  Z.abs z < 2 ^ 53 -> float_of_int z = Some (inject_Z z).
Proof.
  intros H. unfold float_of_int.
  destruct (Z.ltb_spec (Z.abs z) (2 ^ 53)); [reflexivity | lia].
Qed.

Lemma div_half_even_lower (a d : Z) : a / d <= div_half_even a d.
Proof.
  unfold div_half_even.
  destruct (2 * (a mod d) ?= d); [destruct (Z.even (a / d)) | |]; lia.
Qed.

(** Rounding to 53 bits does not take an [int] below 2^52. *)
Lemma float_of_int_large (z : Z) (q : Q) :
  2 ^ 53 <= z -> float_of_int z = Some q -> (inject_Z (2 ^ 52) <= q)%Q.
Proof.
  intros Hz. unfold float_of_int.
  assert (H53 : 0 < 2 ^ 53) by reflexivity.
  rewrite (Z.abs_eq z) by lia.
  destruct (Z.ltb_spec z (2 ^ 53)); [lia|].
  set (e := Z.log2 z - 52).
  destruct (div_half_even z (2 ^ e) * 2 ^ e <? 2 ^ 1024); [|discriminate].
  intros Hq. inversion Hq; subst q. clear Hq.
  rewrite <- Zle_Qle.
  assert (Hlog : 53 <= Z.log2 z).
  { rewrite <- (Z.log2_pow2 53) by lia. apply Z.log2_le_mono. exact Hz. }
  assert (He : 0 <= e) by (unfold e; lia).
  assert (Hd : 0 < 2 ^ e) by (apply Z.pow_pos_nonneg; lia).
  assert (Hdiv : 2 ^ 52 <= z / 2 ^ e).
  { apply Z.div_le_lower_bound; [exact Hd|].
    rewrite <- Z.pow_add_r by lia.
    replace (e + 52) with (Z.log2 z) by (unfold e; lia).
    apply Z.log2_spec. lia. }
  pose proof (div_half_even_lower z (2 ^ e)) as Hr.
  rewrite (Z.sgn_pos z) by lia.
  assert (H52 : 0 < 2 ^ 52) by reflexivity.
  nia.
Qed.

(** The [float] of an [int] of at least 1024^3 is at least 1024^3. *)
Lemma float_of_int_gib (z : Z) (q : Q) :
  gib <= z -> float_of_int z = Some q -> (inject_Z gib <= q)%Q.
Proof.
  intros Hz Hq.
  destruct (Z.lt_ge_cases z (2 ^ 53)) as [Hs|Hl].
  - rewrite float_of_int_small in Hq.
    + inversion Hq; subst q. rewrite <- Zle_Qle. exact Hz.
    + unfold gib in Hz. rewrite Z.abs_eq; lia.
  - apply Qle_trans with (inject_Z (2 ^ 52)).
    + rewrite <- Zle_Qle. vm_compute. discriminate.
    + exact (float_of_int_large z q Hl Hq).
Qed.

(** An [int] of at least 1024^3 that [float()] takes passes all three
    units. *)
Lemma human_readable_size_of_int_none (z : Z) :
  gib <= z -> float_of_int z <> None ->
  human_readable_size_of (PInt z) = Ret None.
Proof.
  intros Hz Hf.
  destruct (float_of_int z) as [q|] eqn:Hq; [clear Hf | congruence].
  unfold human_readable_size_of.
  cbn [human_readable_size_of_loop below_1024 format_size divide_by_1024].
  rewrite Hq. cbn [option_map].
  pose proof (div_1024_exact q) as D1.
  pose proof (div_1024_exact (q / 1024)) as D2.
  assert (H1 : (z <? 1024) = false)
    by (apply Z.ltb_ge; unfold gib in Hz; lia).
  rewrite H1.
  pose proof (float_of_int_gib z q Hz Hq) as Hge.
  unfold gib in Hge.
  change (inject_Z (1024 * 1024 * 1024)) with (1024 * 1024 * 1024)%Q in Hge.
  destruct (Qlt_le_dec (q / 1024) 1024) as [H2|H2]; [lra|].
  destruct (Qlt_le_dec (q / 1024 / 1024) 1024) as [H3|H3]; [lra|].
  reflexivity.
Qed.

(** An [int] below 1024^3 that [float()] takes gets its string. *)
Lemma human_readable_size_of_int_some (z : Z) :
  z < gib -> float_of_int z <> None ->
  exists s, human_readable_size_of (PInt z) = Ret (Some s).
Proof.
  intros Hz Hf.
  destruct (float_of_int z) as [q|] eqn:Hq; [clear Hf | congruence].
  unfold human_readable_size_of.
  cbn [human_readable_size_of_loop below_1024 format_size divide_by_1024].
  rewrite Hq. cbn [option_map].
  pose proof (div_1024_exact q) as D1.
  pose proof (div_1024_exact (q / 1024)) as D2.
  destruct (Z.ltb_spec z 1024) as [Hlt|Hge]; [eauto|].
  rewrite float_of_int_small in Hq
    by (unfold gib in Hz; rewrite Z.abs_eq by lia;
        apply Z.lt_trans with (1024 * 1024 * 1024);
        [exact Hz | reflexivity]).
  inversion Hq; subst q.
  assert (Hq' : (inject_Z z < 1024 * 1024 * 1024)%Q).
  { change (1024 * 1024 * 1024)%Q with (inject_Z (1024 * 1024 * 1024)).
    rewrite <- Zlt_Qlt. exact Hz. }
  destruct (Qlt_le_dec (inject_Z z / 1024) 1024) as [H2|H2]; [eauto|].
  destruct (Qlt_le_dec (inject_Z z / 1024 / 1024) 1024) as [H3|H3];
    [eauto | lra].
Qed.

(** C10, as it holds.  For a [float], and for an [int] that [float()]
    takes, [human_readable_size] returns [None] when the number is at
    least 1024^3, and a string when it is below 1024^3. *)
Theorem human_readable_size_none_from_gib (number_bytes : pynum) :
  has_float number_bytes ->
  (at_least_gib number_bytes -> human_readable_size_of number_bytes = Ret None)
  /\ (below_gib number_bytes ->
      exists s, human_readable_size_of number_bytes = Ret (Some s)).
Proof.
  destruct number_bytes as [z | [q | | negative |]]; cbn [has_float];
    intros Hf.
  - split; intros Hz.
    + exact (human_readable_size_of_int_none z Hz Hf).
    + exact (human_readable_size_of_int_some z Hz Hf).
  - rewrite human_readable_size_of_finite.
    unfold at_least_gib, below_gib, gib.
    change (inject_Z (1024 * 1024 * 1024)) with (1024 * 1024 * 1024)%Q.
    split; intros H.
    + f_equal. apply human_readable_size_none, H.
    + destruct (human_readable_size_some q H) as [s Hs].
      exists s. f_equal. exact Hs.
  - split; [intros [] | intros _; eexists; reflexivity].
  - split; cbn [at_least_gib below_gib]; intros ->;
      [reflexivity | eexists; reflexivity].
  - split; intros [].
Qed.

Lemma human_readable_size_none_from_gib_witness :
  human_readable_size_of (PInt (4 * gib)) = Ret None
  /\ (exists s, human_readable_size_of (PInt 250000) = Ret (Some s))
  /\ human_readable_size_of (PFloat (Finite (inject_Z gib))) = Ret None
  /\ (exists s, human_readable_size_of (PFloat (Infinite true))
                = Ret (Some s)).
Proof.
  split; [|split; [|split]].
  - apply (human_readable_size_none_from_gib (PInt (4 * gib)));
      [vm_compute; discriminate | vm_compute; discriminate].
  - apply (human_readable_size_none_from_gib (PInt 250000));
      [vm_compute; discriminate | reflexivity].
  - apply (human_readable_size_none_from_gib (PFloat (Finite (inject_Z gib))));
      [exact I | vm_compute; discriminate].
  - apply (human_readable_size_none_from_gib (PFloat (Infinite true)));
      [exact I | reflexivity].
Defined.

(** C10, as it is worded, fails on an [int] that is no [float]: 2^1024 is
    at least 1024^3 and the division of line 332 raises [OverflowError];
    -2^1024 is below 1024^3 and the format of line 331 raises it. *)
Lemma human_readable_size_overflows :
  at_least_gib (PInt (2 ^ 1024))
  /\ human_readable_size_of (PInt (2 ^ 1024)) = Raise OverflowError
  /\ below_gib (PInt (- 2 ^ 1024))
  /\ human_readable_size_of (PInt (- 2 ^ 1024)) = Raise OverflowError.
Proof.
  split; [vm_compute; discriminate|].
  split; [vm_compute; reflexivity|].
  split; vm_compute; reflexivity.
Qed.

(** X17.  For a total of 1024^3 bytes or more that [float()] takes, the
    status line of [print_download_status] reports the total as [None],
    behind the written size. *)
Theorem print_download_status_huge_total
    (block_count block_size total_size : Z) (written_size : option string) :
  human_readable_size_of (PInt (block_count * block_size))
  = Ret written_size ->
  1024 * 1024 * 1024 <= total_size ->
  float_of_int total_size <> None ->
  print_download_status block_count block_size total_size
  = Ret (String (ascii_of_nat 13)
           (percent_s written_size ++ " bytes of None         ")).
Proof.
  intros Hw Ht Hf. unfold print_download_status. rewrite Hw.
  rewrite (human_readable_size_of_int_none total_size Ht Hf). reflexivity.
Qed.

Lemma print_download_status_huge_total_witness :
  print_download_status 3 8192 2147483648
  = Ret (String (ascii_of_nat 13) "24.00KB bytes of None         ").
Proof.
  apply (print_download_status_huge_total 3 8192 2147483648
           (Some "24.00KB"));
    [vm_compute; reflexivity | lia | vm_compute; discriminate].
Defined.

(** ** The seeding loop *)

(** One round of the loop on a day that is passed over: the page is
    fetched, nothing else happens, the count of images wanted stays. *)
Lemma seed_loop_skip (E : env) (fuel : nat) (d left : Z)
    (images : list string) (w : world) :
  0 < left ->
  1 <= now E - (d + 1) ->
  skipped_day E (globals w) (d + 1) ->
  seed_loop E (S fuel) d left images w
  = seed_loop E fuel (d + 1) left images
      (MkWorld (globals w) (files w) (dirs w)
         (trace w ++ [EvGet (seed_page E (globals w) (d + 1))])).
Proof.
  intros Hleft Hday Hskip. cbn [seed_loop].
  replace (left >? 0) with true by (symmetry; apply Z.gtb_lt; lia).
  unfold bind at 1. unfold get_globals at 1.
  replace (now E - (d + 1) <? 1) with false
    by (symmetry; apply Z.ltb_ge; lia).
  unfold bind at 1. fold (seed_page E (globals w) (d + 1)).
  rewrite download_site_result.
  destruct Hskip as [[code Hget] | (body & Hget & Hvalid & Hnone)];
    rewrite Hget.
  - change (text_eq_str (Text ("Error: " ++ Str.py_str code)) "error")
      with false. cbv iota.
    unfold bind at 1.
    rewrite (get_image_no_anchor E _ ("Error: " ++ Str.py_str code))
      by (reflexivity || apply error_text_has_no_anchor).
    reflexivity.
  - change (text_eq_str (Bytes body) "error") with false. cbv iota.
    unfold bind at 1.
    rewrite (get_image_no_anchor E _ body)
      by (exact Hnone || (unfold decode; rewrite Hvalid; reflexivity)).
    reflexivity.
Qed.

(** The loop does not return while an image is wanted: no day ever
    yields one. *)
Lemma seed_loop_ret (E : env) (fuel : nat) :
  forall (d left : Z) (images l : list string) (w w' : world),
    seed_loop E fuel d left images w = (Ret l, w') ->
    left <= 0 /\ l = images /\ w' = w.
Proof.
  induction fuel as [|fuel IH]; intros d left images l w w' H;
    cbn [seed_loop] in H;
    (destruct (Z.gtb_spec left 0) as [Hpos|Hle];
     [| inversion H; subst; auto with zarith]).
  - discriminate H.
  - exfalso. revert H.
    unfold bind at 1. unfold get_globals at 1.
    destruct (now E - (d + 1) <? 1); [discriminate|].
    unfold bind at 1. rewrite download_site_result.
    set (w1 := MkWorld _ _ _ _).
    assert (Hstep : forall t,
               text_eq_str t "error" = false ->
               (if text_eq_str t "error"
                then seed_loop E fuel (d + 1) left images
                else
                  seed_filename <- get_image E t ;;
                  match seed_filename with
                  | Some f =>
                      resize_image E f ;;;
                      seed_loop E fuel (d + 1) (left - 1) (images ++ [f])
                  | None => seed_loop E fuel (d + 1) left images
                  end) w1 <> (Ret l, w')).
    { intros t Ht. rewrite Ht. unfold bind at 1.
      destruct (get_image_result E t w1) as [Hg|[e Hg]]; rewrite Hg.
      - intros H. apply IH in H. lia.
      - discriminate. }
    destruct (http_get E _) as [b|code|]; [| |discriminate].
    + apply Hstep. reflexivity.
    + apply Hstep. reflexivity.
Qed.

(** X24.  The seeding loop returns only when no image is wanted, and
    then at once, with the list it was given: a day with a picture ends
    it with an exception, a day without leaves the count as it is. *)
Theorem seed_loop_returns_only_without_demand (E : env) (fuel : nat)
    (d left : Z) (images l : list string) (w w' : world) :
  seed_loop E fuel d left images w = (Ret l, w') ->
  left <= 0 /\ l = images /\ w' = w.
Proof. apply seed_loop_ret. Qed.

Lemma seed_loop_returns_only_without_demand_witness :
  let w := Scenario.start (Scenario.config "default" true 0) [] in
  0 <= 0 /\ ["backgrounds/m31.png"] = ["backgrounds/m31.png"] /\ w = w.
Proof.
  intros w.
  apply (seed_loop_returns_only_without_demand Scenario.refusing_site 5 0 0
           ["backgrounds/m31.png"] ["backgrounds/m31.png"] w w).
  reflexivity.
Defined.

(** X20.  When every day from [d + 1] back to day 1 is passed over, the
    loop fetches the page of each of them, one day after the other, and
    ends with the [OverflowError] of line 365: the day before day 1 is
    no date. *)
Theorem seed_loop_ends_before_day_one (E : env) (g : settings) (n : nat) :
  forall (fuel : nat) (d left : Z) (images : list string) (w : world),
    globals w = g ->
    0 < left ->
    now E - d - 1 = Z.of_nat n ->
    (forall k, d < k < now E -> skipped_day E g k) ->
    (n < fuel)%nat ->
    seed_loop E fuel d left images w
    = (Raise OverflowError,
       MkWorld (globals w) (files w) (dirs w)
         (trace w
          ++ map (fun k => EvGet (seed_page E g (d + Z.of_nat k)))
               (seq 1 n))).
Proof.
  induction n as [|n IH]; intros fuel d left images w Hg Hleft Hn Hskip Hfuel;
    (destruct fuel as [|fuel]; [lia|]).
  - cbn [seed_loop].
    replace (left >? 0) with true by (symmetry; apply Z.gtb_lt; lia).
    unfold bind at 1. unfold get_globals at 1.
    replace (now E - (d + 1) <? 1) with true
      by (symmetry; apply Z.ltb_lt; lia).
    cbn [seq map]. rewrite app_nil_r. destruct w; reflexivity.
  - rewrite seed_loop_skip;
      [| exact Hleft | lia | rewrite Hg; apply Hskip; lia].
    set (w1 := MkWorld (globals w) (files w) (dirs w)
                 (trace w ++ [EvGet (seed_page E (globals w) (d + 1))])).
    rewrite (IH fuel (d + 1) left images w1 Hg Hleft);
      [| lia | intros k Hk; apply Hskip; lia | lia].
    subst w1. cbn [globals files dirs trace]. f_equal. f_equal.
    rewrite <- app_assoc. f_equal. rewrite Hg.
    change (seq 1 (S n)) with (1%nat :: seq 2 n).
    cbn [map app]. f_equal.
    rewrite <- (seq_shift n 1), map_map. apply map_ext. intros k.
    do 2 f_equal. lia.
Qed.

Lemma seed_loop_ends_before_day_one_witness :
  let w := Scenario.start (Scenario.config "default" true 10) [] in
  seed_loop Scenario.refusing_site 50 0 10 [] w
  = (Raise OverflowError,
     MkWorld (globals w) [] ["backgrounds"]
       [EvGet "http://apod.nasa.gov/apod/ap3.html";
        EvGet "http://apod.nasa.gov/apod/ap2.html";
        EvGet "http://apod.nasa.gov/apod/ap1.html"]).
Proof.
  intros w.
  apply (seed_loop_ends_before_day_one Scenario.refusing_site
           (Scenario.config "default" true 10) 3 50 0 10 [] w).
  - reflexivity.
  - lia.
  - reflexivity.
  - intros k _. left. exists 503. reflexivity.
  - repeat constructor.
Defined.

(** ** The playlist builder *)

(** The glob lists only entries of the directory whose name matches
    [*.png]. *)
Lemma glob_png_entries (d p : string) (fs : list (string * content)) :
  In p (glob_png d fs) ->
  PathLib.is_png_entry d p = true /\ is_file p fs = true.
Proof.
  unfold glob_png. rewrite filter_In, in_map_iff.
  intros [[[q c] [Hq Hin]] Hpng]. simpl in Hq. subst q.
  split; [assumption|].
  unfold is_file. induction fs as [|[q c'] fs IH]; [contradiction|].
  simpl. destruct (String.eqb_spec q p); [reflexivity|].
  destruct Hin as [Heq|Hin]; [inversion Heq; congruence | auto].
Qed.

(** The images the builder goes on with are those of the glob: when the
    collection returns, no seeding has added any. *)
Lemma collect_images_ret (E : env) (fuel : nat) (w w' : world)
    (images : list string) :
  collect_images E fuel w = (Ret images, w') ->
  images = glob_png (DOWNLOAD_PATH (globals w)) (files w) /\ w' = w.
Proof.
  unfold collect_images, bind, get_globals, get_files.
  destruct (_ <? SEED_IMAGES (globals w)).
  - intros H. apply seed_loop_ret in H as (_ & Hl & Hw). auto.
  - intros H. inversion H; subst. auto.
Qed.

(** With a [Path] for a file, the first round of the loop raises; with
    no image there is no round. *)
Lemma playlist_of_paths (g : settings) (images : list string) :
  playlist g (map PathObj images)
  = match images with
    | [] => Some (Element "background" None [])
    | _ :: _ => None
    end.
Proof. destruct images; reflexivity. Qed.



(** C3 (code defect).  One picture in the download directory, then two:
    the builder ends with the [TypeError] of line 406, where a [Path] is
    assigned as the text of an element.  No playlist is written; a run
    of [__main__] on a day without picture ends there, before any
    wallpaper command. *)
Theorem playlist_builder_raises_on_pictures :
  let E := Scenario.site (Body Scenario.video_page) Scenario.no_day 0 None
             Scenario.two_screens in
  let w1 := Scenario.start (Scenario.config "default" true 1)
              [("backgrounds/m31.png", Image 1024 768)] in
  let w2 := Scenario.start (Scenario.config "default" true 2)
              [("backgrounds/m31.png", Image 1024 768);
               ("backgrounds/m42.png", Image 1024 768)] in
  create_desktop_background_scoll E 0 None w1 = (Raise TypeError, w1)
  /\ create_desktop_background_scoll E 0 None w2 = (Raise TypeError, w2)
  /\ fst (main E 0 w2) = Raise TypeError
  /\ files (snd (main E 0 w2)) = files w2
  /\ trace (snd (main E 0 w2)) = [EvGet "http://apod.nasa.gov/apod/"].
Proof. repeat split; vm_compute; reflexivity. Qed.

(** X23.  With scrolling on and enough pictures in the download
    directory (at least one, and at least [SEED_IMAGES]), the builder
    ends with [TypeError] and leaves the world as it was: it requests
    nothing and writes no playlist. *)
Theorem playlist_builder_raises_with_a_picture (E : env) (fuel : nat)
    (filename : option string) (w : world) :
  let g := globals w in
  let images := glob_png (DOWNLOAD_PATH g) (files w) in
  IMAGE_SCROLL g = true ->
  images <> [] ->
  SEED_IMAGES g <= Z.of_nat (List.length images) ->
  (forall l, Permutation (shuffle E l) l) ->
  create_desktop_background_scoll E fuel filename w = (Raise TypeError, w).
Proof.
  intros g images Hscroll Hne Hseed Hperm.
  unfold create_desktop_background_scoll, bind at 1, get_globals at 1.
  fold g. rewrite Hscroll. cbn [negb].
  unfold bind at 1, collect_images, bind at 1, get_globals at 1.
  unfold bind at 1, get_files at 1. fold g. fold images.
  replace (Z.of_nat (List.length images) <? SEED_IMAGES g) with false
    by (symmetry; apply Z.ltb_ge; exact Hseed).
  unfold ret at 1. rewrite playlist_of_paths.
  destruct (shuffle E images) as [|p l] eqn:Hsh; [|reflexivity].
  exfalso. apply Hne. apply Permutation_nil.
  rewrite <- Hsh. apply Hperm.
Qed.

Lemma playlist_builder_raises_with_a_picture_witness :
  let E := Scenario.site (Body Scenario.video_page) Scenario.no_day 0 None
             Scenario.two_screens in
  let w := Scenario.start (Scenario.config "default" true 2)
             [("backgrounds/m31.png", Image 1024 768);
              ("backgrounds/m42.png", Image 1024 768);
              ("backgrounds/m51.png", Image 1024 768)] in
  create_desktop_background_scoll E 0 (Some "backgrounds/m31.png") w
  = (Raise TypeError, w).
Proof.
  intros E w.
  apply (playlist_builder_raises_with_a_picture E 0
           (Some "backgrounds/m31.png") w).
  - reflexivity.
  - vm_compute. discriminate.
  - vm_compute. discriminate.
  - intros l. change (Permutation (rev l) l).
    apply Permutation_sym, Permutation_rev.
Defined.



(** X25.  With scrolling on, the builder returns only from an empty
    download directory, and what it has then written is the playlist
    without entries: it never writes a playlist that shows a picture. *)
Theorem playlist_builder_returns_only_empty (E : env) (fuel : nat)
    (filename r : option string) (w w' : world) :
  let g := globals w in
  let target :=
    PathLib.child (DOWNLOAD_PATH g) "nasa_apod_desktop_backgrounds.xml" in
  IMAGE_SCROLL g = true ->
  (forall l, Permutation (shuffle E l) l) ->
  create_desktop_background_scoll E fuel filename w = (Ret r, w') ->
  glob_png (DOWNLOAD_PATH g) (files w) = []
  /\ r = Some target
  /\ lookup_file target (files w')
     = Some (Playlist (Element "background" None [])).
Proof.
  intros g target Hscroll Hperm.
  unfold create_desktop_background_scoll, bind at 1, get_globals at 1.
  fold g. rewrite Hscroll. cbn [negb].
  unfold bind at 1.
  destruct (collect_images E fuel w) as [[images| |e|] w1] eqn:Hc;
    try discriminate.
  apply collect_images_ret in Hc as [Himages ->].
  rewrite playlist_of_paths.
  destruct (shuffle E images) as [|p l] eqn:Hsh; [|discriminate].
  assert (Hnil : images = []).
  { apply Permutation_nil. rewrite <- Hsh. apply Hperm. }
  cbn. intros H. inversion H; subst r w'. clear H.
  split; [unfold g; rewrite <- Himages; exact Hnil|].
  split; [reflexivity|].
  cbn [files]. apply lookup_write_same.
Qed.

Lemma playlist_builder_returns_only_empty_witness :
  let E := Scenario.site (Body Scenario.video_page) Scenario.no_day 0 None
             Scenario.two_screens in
  let w := Scenario.start (Scenario.config "default" true 0) [] in
  glob_png "backgrounds" (files w) = []
  /\ Some "backgrounds/nasa_apod_desktop_backgrounds.xml"
     = Some "backgrounds/nasa_apod_desktop_backgrounds.xml"
  /\ lookup_file "backgrounds/nasa_apod_desktop_backgrounds.xml"
       [("backgrounds/nasa_apod_desktop_backgrounds.xml",
         Playlist (Element "background" None []))]
     = Some (Playlist (Element "background" None [])).
Proof.
  intros E w.
  apply (playlist_builder_returns_only_empty E 0 None
           (Some "backgrounds/nasa_apod_desktop_backgrounds.xml") w
           (MkWorld (globals w)
              [("backgrounds/nasa_apod_desktop_backgrounds.xml",
                Playlist (Element "background" None []))]
              (dirs w)
              [EvWrite "backgrounds/nasa_apod_desktop_backgrounds.xml"])).
  - reflexivity.
  - intros l. change (Permutation (rev l) l).
    apply Permutation_sym, Permutation_rev.
  - reflexivity.
Defined.

(** C4 (code defect).  The download directory is empty and one image is
    to be seeded; yesterday has no page, the day before has a picture.
    The loop goes back day by day and passes over yesterday, and at the
    first day with a picture it ends with the [AttributeError] of line
    459: nothing is downloaded, no image is added, the builder and the
    run end there. *)
Theorem seeding_raises_at_first_picture :
  let E := Scenario.site (HttpError 404) Scenario.picture_two_days_ago 250000
             (Some (Image 1920 1080)) Scenario.two_screens in
  let w := Scenario.start (Scenario.config "default" true 1) [] in
  fst (collect_images E 10 w) = Raise AttributeError
  /\ files (snd (collect_images E 10 w)) = []
  /\ trace (snd (collect_images E 10 w))
     = [EvGet "http://apod.nasa.gov/apod/ap3.html";
        EvGet "http://apod.nasa.gov/apod/ap2.html"]
  /\ fst (create_desktop_background_scoll E 10 None w) = Raise AttributeError
  /\ fst (main E 10 w) = Raise AttributeError
  /\ files (snd (main E 10 w)) = [].
Proof. repeat split; vm_compute; reflexivity. Qed.

Lemma app_assoc_str (s t u : string) : (s ++ t) ++ u = s ++ t ++ u.
Proof. induction s as [|c s IH]; simpl; congruence. Qed.

Lemma drop_n_app (s t : string) : Str.drop_n (String.length s) (s ++ t) = t.
Proof. induction s as [|c s IH]; simpl; [destruct t|]; auto. Qed.

(** X19.  The playlist file is never among the pictures the builder
    globs: a later run does not list its own playlist as an image. *)
Theorem playlist_file_is_no_picture (download_path : string)
    (fs : list (string * content)) :
  ~ In (PathLib.child download_path "nasa_apod_desktop_backgrounds.xml")
       (glob_png download_path fs).
Proof.
  intros Hin. apply glob_png_entries in Hin as [Hentry _].
  revert Hentry. unfold PathLib.is_png_entry, PathLib.child.
  set (name := "nasa_apod_desktop_backgrounds.xml").
  assert (Hname : negb (Str.has_char "/" name) && Str.ends_with ".png" name
                  = false) by (vm_compute; reflexivity).
  destruct (String.eqb download_path "." || String.eqb download_path "").
  - cbn [String.length Str.drop_n]. rewrite Hname, andb_false_r. discriminate.
  - destruct (Str.ends_with "/" download_path).
    + rewrite app_nil_str, drop_n_app, Hname, andb_false_r. discriminate.
    + change (download_path ++ "/" ++ "") with (download_path ++ "/").
      change (download_path ++ "/" ++ name)
        with (download_path ++ String "/" name).
      replace (download_path ++ String "/" name)
        with ((download_path ++ "/") ++ name)
        by (rewrite app_assoc_str; reflexivity).
      rewrite drop_n_app, Hname, andb_false_r. discriminate.
Qed.

(** ** [__main__] *)

(** X21.  Creating the download directory: when it is missing and its
    parent exists, [ensure_download_dir] creates it, and a second call
    finds it and does nothing. *)
Theorem ensure_download_dir_creates_once (E : env) (w : world) :
  let d := expanduser E (DOWNLOAD_PATH (globals w)) in
  is_dir d (dirs w) || is_file d (files w) = false ->
  is_dir (PathLib.parent d) (dirs w) = true ->
  let w' := MkWorld (globals w) (files w) (dirs w ++ [d])
              (trace w ++ [EvMkdir d]) in
  ensure_download_dir E w = (Ret tt, w')
  /\ is_dir d (dirs w') = true
  /\ ensure_download_dir E w' = (Ret tt, w').
Proof.
  intros d Hmissing Hparent w'.
  assert (Hdir : is_dir d (dirs w') = true).
  { unfold is_dir. subst w'. cbn [dirs].
    rewrite existsb_app. cbn [existsb]. rewrite String.eqb_refl.
    rewrite !orb_true_r. reflexivity. }
  split; [|split; [exact Hdir|]].
  - unfold ensure_download_dir, bind, get_globals, get_files, get_dirs.
    fold d. rewrite Hmissing. unfold log, add_dir. cbn [dirs].
    rewrite Hparent. reflexivity.
  - unfold ensure_download_dir, bind, get_globals, get_files, get_dirs.
    subst w'. cbn [globals files dirs] in *. fold d. rewrite Hdir.
    reflexivity.
Qed.

Lemma ensure_download_dir_creates_once_witness :
  let E := Scenario.site NoReply Scenario.no_day 0 None Scenario.two_screens in
  let w := MkWorld (Scenario.config "default" true 10) [] [] [] in
  fst (ensure_download_dir E w) = Ret tt
  /\ dirs (snd (ensure_download_dir E w)) = ["backgrounds"].
Proof.
  intros E w.
  destruct (ensure_download_dir_creates_once E w) as (Hrun & _ & _);
    try reflexivity.
  rewrite Hrun. split; reflexivity.
Defined.

(** The start of a run with the default resolution, no [glib] and the
    download directory in place: up to the fetch of the front page the
    world does not change. *)
Lemma main_default_start (E : env) (fuel : nat) (w : world) :
  let g := globals w in
  RESOLUTION_TYPE g = "default" ->
  glib_downloads E = None ->
  is_dir (expanduser E (DOWNLOAD_PATH g)) (dirs w) = true ->
  main E fuel w
  = (site_contents <- download_site E (NASA_APOD_SITE g) ;;
     if text_eq_str site_contents "error" then exit
     else
       filename <- get_image E site_contents ;;
       match filename with
       | Some f => resize_image E f
       | None => ret tt
       end ;;;
       filename <- create_desktop_background_scoll E fuel filename ;;
       match filename with
       | None => exit
       | Some f => status <- set_gnome_wallpaper E f ;; ret tt
       end) w.
Proof.
  intros g Htype Hglib Hdir.
  assert (Hw : MkWorld g (files w) (dirs w) (trace w) = w)
    by (destruct w; reflexivity).
  unfold main.
  unfold bind at 1, find_resolution, bind at 1, get_globals at 1.
  fold g. rewrite Htype. change (String.eqb "default" "default") with true.
  cbv iota. unfold ret at 1.
  unfold bind at 1, get_globals at 1. fold g.
  unfold bind at 1, put_globals at 1. cbn [fst snd].
  assert (Hg1 : set_resolution (RESOLUTION_X g) (RESOLUTION_Y g) g = g)
    by (destruct g; reflexivity).
  rewrite Hg1.
  unfold bind at 1, set_download_folder, bind at 1, get_globals at 1.
  cbn [globals]. rewrite Hglib. unfold ret at 1.
  unfold bind at 1, get_globals at 1. cbn [globals].
  unfold bind at 1, put_globals at 1. cbn [globals files dirs trace].
  assert (Hg2 : set_download_path (DOWNLOAD_PATH g) g = g)
    by (destruct g; reflexivity).
  rewrite Hg2.
  unfold bind at 1, ensure_download_dir, bind at 1, get_globals at 1.
  unfold bind at 1, get_files at 1, bind at 1, get_dirs at 1.
  cbn [globals files dirs]. rewrite Hdir. cbn [orb]. unfold ret at 1.
  unfold bind at 1, get_globals at 1. cbn [globals].
  rewrite Hw. reflexivity.
Qed.

(** C2 (code defect).  The front page answers 404; the download
    directory is empty and no image is to be seeded.  [download_site]
    returns the marker ['Error: 404'], the test against ['error'] in
    [__main__] does not recognise it, and the run goes on to its end: it
    writes the playlist and runs the wallpaper command. *)
Theorem main_http_error_goes_undetected :
  let E := Scenario.site (HttpError 404) Scenario.no_day 0 None
             Scenario.two_screens in
  let w := Scenario.start (Scenario.config "default" true 0) [] in
  fst (download_site E "http://apod.nasa.gov/apod/" w) = Ret (Text "Error: 404")
  /\ text_eq_str (Text "Error: 404") "error" = false
  /\ fst (main E 0 w) = Ret tt
  /\ files (snd (main E 0 w))
     = [("backgrounds/nasa_apod_desktop_backgrounds.xml",
         Playlist (Element "background" None []))]
  /\ trace (snd (main E 0 w))
     = [ EvGet "http://apod.nasa.gov/apod/";
         EvWrite "backgrounds/nasa_apod_desktop_backgrounds.xml";
         EvRun ("gsettings set org.gnome.desktop.background picture-uri "
                ++ "file://backgrounds/nasa_apod_desktop_backgrounds.xml") ].
Proof. repeat split; vm_compute; reflexivity. Qed.

(** X22.  A day without picture with scrolling off: [__main__] fetches
    the front page, finds no image in the decoded page, and exits; it
    writes no file and runs no wallpaper command. *)
Theorem main_exits_without_picture_and_scroll (E : env) (fuel : nat)
    (w : world) (body : string) :
  let g := globals w in
  RESOLUTION_TYPE g = "default" ->
  glib_downloads E = None ->
  is_dir (expanduser E (DOWNLOAD_PATH g)) (dirs w) = true ->
  http_get E (NASA_APOD_SITE g) = Body body ->
  Utf8.valid body = true ->
  re_search "<a href='(image.*?)'" body true = Some None ->
  IMAGE_SCROLL g = false ->
  fst (main E fuel w) = Exit
  /\ files (snd (main E fuel w)) = files w
  /\ trace (snd (main E fuel w)) = (trace w ++ [EvGet (NASA_APOD_SITE g)])%list.
Proof.
  intros g Htype Hglib Hdir Hget Hvalid Hnone Hscroll. subst g.
  assert (Hrun : main E fuel w
                 = (Exit, MkWorld (globals w) (files w) (dirs w)
                            (trace w ++ [EvGet (NASA_APOD_SITE (globals w))]))).
  { rewrite (main_default_start E fuel w Htype Hglib Hdir).
    unfold bind at 1. rewrite download_site_result, Hget.
    change (text_eq_str (Bytes body) "error") with false. cbv iota.
    unfold bind at 1.
    rewrite (get_image_no_anchor E _ body)
      by (exact Hnone || (unfold decode; rewrite Hvalid; reflexivity)).
    unfold bind at 1, ret at 1.
    unfold bind at 1, create_desktop_background_scoll, bind at 1,
      get_globals at 1.
    cbn [globals]. rewrite Hscroll. reflexivity. }
  rewrite Hrun. auto.
Qed.

Lemma main_exits_without_picture_and_scroll_witness :
  let E := Scenario.site (Body Scenario.video_page) Scenario.no_day 0 None
             Scenario.two_screens in
  let w := Scenario.start (Scenario.config "default" false 10) [] in
  fst (main E 10 w) = Exit
  /\ trace (snd (main E 10 w)) = [EvGet "http://apod.nasa.gov/apod/"].
Proof.
  intros E w.
  destruct (main_exits_without_picture_and_scroll E 10 w Scenario.video_page)
    as (Hexit & _ & Htrace); try (vm_compute; reflexivity).
  split; assumption.
Defined.

(** X9.  A day with a picture: when the front page decodes and has an
    image anchor, [__main__] fetches the front page and ends with the
    [AttributeError] of line 459; it writes no file and runs no wallpaper
    command, whatever the settings for scrolling and seeding. *)
Theorem main_raises_on_picture_day (E : env) (fuel : nat) (w : world)
    (body : string) (mo : Re.match_obj) :
  let g := globals w in
  RESOLUTION_TYPE g = "default" ->
  glib_downloads E = None ->
  is_dir (expanduser E (DOWNLOAD_PATH g)) (dirs w) = true ->
  http_get E (NASA_APOD_SITE g) = Body body ->
  Utf8.valid body = true ->
  re_search "<a href='(image.*?)'" body true = Some (Some mo) ->
  fst (main E fuel w) = Raise AttributeError
  /\ files (snd (main E fuel w)) = files w
  /\ trace (snd (main E fuel w)) = (trace w ++ [EvGet (NASA_APOD_SITE g)])%list.
Proof.
  intros g Htype Hglib Hdir Hget Hvalid Hre. subst g.
  assert (Hrun : main E fuel w
                 = (Raise AttributeError,
                    MkWorld (globals w) (files w) (dirs w)
                      (trace w ++ [EvGet (NASA_APOD_SITE (globals w))]))).
  { rewrite (main_default_start E fuel w Htype Hglib Hdir).
    unfold bind at 1. rewrite download_site_result, Hget.
    change (text_eq_str (Bytes body) "error") with false. cbv iota.
    unfold bind at 1.
    rewrite (get_image_on_anchor E (Bytes body) body mo)
      by (exact Hre || (unfold decode; rewrite Hvalid; reflexivity)).
    reflexivity. }
  rewrite Hrun. auto.
Qed.

Lemma main_raises_on_picture_day_witness :
  let E := Scenario.site (Body Scenario.picture_page) Scenario.no_day 250000
             (Some (Image 1920 1080)) Scenario.two_screens in
  let w := Scenario.start (Scenario.config "default" true 10) [] in
  fst (main E 10 w) = Raise AttributeError
  /\ files (snd (main E 10 w)) = []
  /\ trace (snd (main E 10 w)) = [EvGet "http://apod.nasa.gov/apod/"].
Proof.
  intros E w.
  pose (r := match Re.compile "<a href='(image.*?)'" with
             | Some r => r
             | None => Re.Eps
             end).
  apply (main_raises_on_picture_day E 10 w Scenario.picture_page
           (match Re.search true r Scenario.picture_page with
            | Some mo => mo
            | None => Re.MkMatch "" "" []
            end));
    vm_compute; reflexivity.
Defined.


